(** * gsheet-colour-by-value: value-to-style derivation

    A shallow embedding of the Apps Script sources

    - [colour-by-value.js]: [getColorFromValue], [getContrastColor],
      [getRandomFormatting], [randomColour], [randomFormat];
    - the utility collection: [generateColourFromValue],
      [colourCellByValueRandom], [colourRangeByValueRandom],
      [colourCellRandom], [colourRangeRandom];

    together with the properties of the specification that concern them.

    JavaScript numbers that the code manipulates are integers far below
    2^53, so they are modelled by [Z]; the places where the language wraps
    to 32 bits ([<<], [&]) are written out.  Strings are sequences of
    code units below 256; the lemmas on the rolling hash are stated on
    arbitrary lists of character codes.  The spreadsheet host is a state
    carrying the sheets and the chronological record of the calls the
    script made to it (the digest service and the setters of a cell);
    sheet names stand for sheets, and coordinates for A1 notation. *)

From Stdlib Require Import ZArith List String Ascii Bool Lia DecimalString.
Import ListNotations.

Local Open Scope Z_scope.

(* ================================================================== *)
(** ** JavaScript primitives *)
(* ================================================================== *)

Module JS.

(** ToInt32: reduction modulo 2^32 into the signed range. *)
Definition toInt32 (z : Z) : Z := (z + 2 ^ 31) mod 2 ^ 32 - 2 ^ 31.

(** [a & b]: both operands go through ToInt32. *)
Definition bitand (a b : Z) : Z := toInt32 (Z.land (toInt32 a) (toInt32 b)).

(** [a << n]: ToInt32 of the left operand, shift count taken modulo 32,
    result wrapped to 32 bits. *)
Definition shl (a n : Z) : Z := toInt32 (Z.shiftl (toInt32 a) (n mod 32)).

(** [a % b] truncates towards zero. *)
Definition rem (a b : Z) : Z := Z.rem a b.

Definition Math_abs (a : Z) : Z := Z.abs a.

(** Values a cell or an argument can hold.  Numbers are the
    integer-valued ones; a [Date] is carried with the text its string
    conversion yields. *)
Inductive Value : Type :=
| VUndefined
| VNull
| VBoolean (b : bool)
| VNumber (n : Z)
| VString (s : string)
| VDate (shown : string).

(** [a === b].  Two [Date] objects obtained separately are never
    identical. *)
Definition strictEq (a b : Value) : bool :=
  match a, b with
  | VUndefined, VUndefined => true
  | VNull, VNull => true
  | VBoolean x, VBoolean y => Bool.eqb x y
  | VNumber x, VNumber y => Z.eqb x y
  | VString x, VString y => String.eqb x y
  | _, _ => false
  end.

(** Decimal rendering of an integer-valued number (of magnitude below
    10^21, where the language switches to exponents). *)
Definition Number_toString (n : Z) : string :=
  NilZero.string_of_int (Z.to_int n).

(** [String(value)]: the canonical string form. *)
Definition String_ (value : Value) : string :=
  match value with
  | VUndefined => "undefined"%string
  | VNull => "null"%string
  | VBoolean true => "true"%string
  | VBoolean false => "false"%string
  | VNumber n => Number_toString n
  | VString s => s
  | VDate shown => shown
  end.

(** [str.charCodeAt(i)] for all [i], in order. *)
Definition charCodes (str : string) : list Z :=
  map (fun c => Z.of_N (N_of_ascii c)) (list_ascii_of_string str).

(** [arr[i]] on an array of numbers used as an operand of [&]: a missing
    element is [undefined], which ToInt32 takes to 0. *)
Definition numberAt (arr : list Z) (i : nat) : Z := nth i arr 0.

(** [arr[i]] on an array of strings, at an integer index. *)
Definition stringAt (arr : list string) (i : Z) : string :=
  nth (Z.to_nat i) arr "undefined"%string.

End JS.

(* ================================================================== *)
(** ** The MD5 service of the host *)
(* ================================================================== *)

(** [Utilities.computeDigest(Utilities.DigestAlgorithm.MD5, str)] is a
    service of the Apps Script host.  The algorithm is that of RFC 1321;
    the host returns the sixteen bytes as signed bytes (-128..127). *)

Module MD5.

Definition add32 (a b : Z) : Z := (a + b) mod 2 ^ 32.

Definition not32 (a : Z) : Z := Z.lxor a 0xFFFFFFFF.

Definition rotl32 (x c : Z) : Z :=
  Z.lor (Z.shiftl x c mod 2 ^ 32) (Z.shiftr x (32 - c)).

Definition shifts : list Z :=
  [7; 12; 17; 22; 7; 12; 17; 22; 7; 12; 17; 22; 7; 12; 17; 22;
   5; 9; 14; 20; 5; 9; 14; 20; 5; 9; 14; 20; 5; 9; 14; 20;
   4; 11; 16; 23; 4; 11; 16; 23; 4; 11; 16; 23; 4; 11; 16; 23;
   6; 10; 15; 21; 6; 10; 15; 21; 6; 10; 15; 21; 6; 10; 15; 21].

Definition sines : list Z :=
  [0xd76aa478; 0xe8c7b756; 0x242070db; 0xc1bdceee;
   0xf57c0faf; 0x4787c62a; 0xa8304613; 0xfd469501;
   0x698098d8; 0x8b44f7af; 0xffff5bb1; 0x895cd7be;
   0x6b901122; 0xfd987193; 0xa679438e; 0x49b40821;
   0xf61e2562; 0xc040b340; 0x265e5a51; 0xe9b6c7aa;
   0xd62f105d; 0x02441453; 0xd8a1e681; 0xe7d3fbc8;
   0x21e1cde6; 0xc33707d6; 0xf4d50d87; 0x455a14ed;
   0xa9e3e905; 0xfcefa3f8; 0x676f02d9; 0x8d2a4c8a;
   0xfffa3942; 0x8771f681; 0x6d9d6122; 0xfde5380c;
   0xa4beea44; 0x4bdecfa9; 0xf6bb4b60; 0xbebfbc70;
   0x289b7ec6; 0xeaa127fa; 0xd4ef3085; 0x04881d05;
   0xd9d4d039; 0xe6db99e5; 0x1fa27cf8; 0xc4ac5665;
   0xf4292244; 0x432aff97; 0xab9423a7; 0xfc93a039;
   0x655b59c3; 0x8f0ccc92; 0xffeff47d; 0x85845dd1;
   0x6fa87e4f; 0xfe2ce6e0; 0xa3014314; 0x4e0811a1;
   0xf7537e82; 0xbd3af235; 0x2ad7d2bb; 0xeb86d391].

(** The four chaining words A, B, C, D. *)
Record State : Type := mkState { wa : Z; wb : Z; wc : Z; wd : Z }.

Definition initial : State :=
  mkState 0x67452301 0xefcdab89 0x98badcfe 0x10325476.

(** One of the 64 operations on a block of sixteen words. *)
Definition operation (block : list Z) (st : State) (i : nat) : State :=
  let '(mkState a b c d) := st in
  let zi := Z.of_nat i in
  let '(f, g) :=
    if zi <? 16 then (Z.lor (Z.land b c) (Z.land (not32 b) d), zi)
    else if zi <? 32 then
      (Z.lor (Z.land d b) (Z.land (not32 d) c), (5 * zi + 1) mod 16)
    else if zi <? 48 then (Z.lxor b (Z.lxor c d), (3 * zi + 5) mod 16)
    else (Z.lxor c (Z.lor b (not32 d)), (7 * zi) mod 16) in
  let sum :=
    add32 (add32 f a) (add32 (nth i sines 0) (nth (Z.to_nat g) block 0)) in
  mkState d (add32 b (rotl32 sum (nth i shifts 0))) b c.

Definition compress (st : State) (block : list Z) : State :=
  let '(mkState a b c d) := fold_left (operation block) (seq 0 64) st in
  mkState (add32 (wa st) a) (add32 (wb st) b)
          (add32 (wc st) c) (add32 (wd st) d).

(** Little-endian bytes of a word, and back. *)
Definition bytesLE (count : nat) (w : Z) : list Z :=
  map (fun k => Z.shiftr w (8 * Z.of_nat k) mod 256) (seq 0 count).

Fixpoint words (bytes : list Z) : list Z :=
  match bytes with
  | b0 :: b1 :: b2 :: b3 :: rest =>
      (b0 + 256 * b1 + 65536 * b2 + 16777216 * b3) :: words rest
  | _ => []
  end.

(** Padding: a 1 bit, zeros up to 56 modulo 64, the bit length on 64
    bits. *)
Definition pad (message : list Z) : list Z :=
  let len := Z.of_nat (List.length message) in
  let zeros := Z.to_nat ((55 - len) mod 64) in
  message ++ [0x80] ++ repeat 0 zeros ++ bytesLE 8 ((8 * len) mod 2 ^ 64).

Fixpoint blocks (count : nat) (ws : list Z) (st : State) : State :=
  match count with
  | O => st
  | S k => blocks k (skipn 16 ws) (compress st (firstn 16 ws))
  end.

Definition signedByte (b : Z) : Z := if b <? 128 then b else b - 256.

Definition digestBytes (message : list Z) : list Z :=
  let ws := words (pad message) in
  let '(mkState a b c d) := blocks (Nat.div (List.length ws) 16) ws initial in
  map signedByte (bytesLE 4 a ++ bytesLE 4 b ++ bytesLE 4 c ++ bytesLE 4 d).

Definition digest (str : string) : list Z := digestBytes (JS.charCodes str).

(** Hexadecimal rendering, for comparison with published test vectors. *)
Definition hexDigit (d : Z) : string :=
  String.substring (Z.to_nat d) 1 "0123456789abcdef".

Definition hex (bytes : list Z) : string :=
  String.concat ""
    (map (fun b => let u := b mod 256 in
                   (hexDigit (u / 16) ++ hexDigit (u mod 16))%string)
         bytes).

End MD5.

(* ================================================================== *)
(** ** The spreadsheet host *)
(* ================================================================== *)

Module Host.
Import JS.

(** [Utilities.DigestAlgorithm]; the scripts only ever name [MD5]. *)
Inductive DigestAlgorithm : Type := MD5.

(** The digest service, as an interface: the scripts only rely on it
    being a function of the algorithm and the string. *)
Class DigestService : Type :=
  digestOf : DigestAlgorithm -> string -> list Z.

(** The service as the host provides it. *)
Definition md5Service : DigestService :=
  fun alg str => match alg with MD5 => MD5.digest str end.

(** A sheet gives a value to every cell (row, column, both from 1); a
    blank cell holds the empty string. *)
Definition Sheet : Type := nat -> nat -> Value.

Definition blankSheet : Sheet := fun _ _ => VString "".

(** A rectangular range.  A1 notation is abstracted to coordinates. *)
Record Range : Type :=
  mkRange { top : nat; left : nat; numRows : nat; numColumns : nat }.

(** A single cell: the sheet's name, the row and the column. *)
Definition CellRef : Type := (string * (nat * nat))%type.

(** The calls that the scripts make to the host and that do something:
    the digest service and the setters of a cell. *)
Inductive Call : Type :=
| ComputeDigest (alg : DigestAlgorithm) (str : string)
| SetValue (cell : CellRef) (value : Value)
| SetBackground (cell : CellRef) (colour : string)
| SetFontColor (cell : CellRef) (colour : string)
| SetFontWeight (cell : CellRef) (weight : string)
| SetFontStyle (cell : CellRef) (style : string)
| SetFontLine (cell : CellRef) (line : string)
| SetFontSize (cell : CellRef) (parseIntOf : string).

Inductive Exn : Type :=
| Error (message : string)
| TypeError (message : string).

Definition message (e : Exn) : string :=
  match e with Error m => m | TypeError m => m end.

Inductive Result (A : Type) : Type :=
| Ok (a : A)
| Thrown (e : Exn).
Arguments Ok {A} a.
Arguments Thrown {A} e.

Record State : Type :=
  mkState {
    sheets : string -> option Sheet;
    activeSheet : string;
    activeRange : Range;
    calls : list Call   (* oldest first *)
  }.

(** A script computation: it reads and changes the host and either
    returns or throws; what it did to the host before throwing stays. *)
Definition M (A : Type) : Type := State -> Result A * State.

Definition ret {A} (a : A) : M A := fun h => (Ok a, h).

Definition bind {A B} (m : M A) (k : A -> M B) : M B :=
  fun h => match m h with
           | (Ok a, h') => k a h'
           | (Thrown e, h') => (Thrown e, h')
           end.

Definition throw {A} (e : Exn) : M A := fun h => (Thrown e, h).

Definition tryCatch {A} (m : M A) (handler : Exn -> M A) : M A :=
  fun h => match m h with
           | (Ok a, h') => (Ok a, h')
           | (Thrown e, h') => handler e h'
           end.

Definition lift {A} (r : Result A) : M A := fun h => (r, h).

(** [for (let i = 0; i < count; i++) body(i)] *)
Fixpoint forLoopFrom (start count : nat) (body : nat -> M unit) : M unit :=
  match count with
  | O => ret tt
  | S k => bind (body start) (fun _ => forLoopFrom (S start) k body)
  end.

Definition forLoop (count : nat) (body : nat -> M unit) : M unit :=
  forLoopFrom 0 count body.

(** [arr.forEach((x, index) => body(x, index))] *)
Fixpoint forEachFrom {A} (index : nat) (arr : list A)
         (body : A -> nat -> M unit) : M unit :=
  match arr with
  | [] => ret tt
  | x :: rest => bind (body x index) (fun _ => forEachFrom (S index) rest body)
  end.

Definition forEach {A} (arr : list A) (body : A -> nat -> M unit) : M unit :=
  forEachFrom 0 arr body.

(** Appending calls to the record of the host. *)
Definition logCalls (cs : list Call) (h : State) : State :=
  mkState (sheets h) (activeSheet h) (activeRange h) (calls h ++ cs).

Definition call (c : Call) : M unit := fun h => (Ok tt, logCalls [c] h).

Definition sheetOf (h : State) (name : string) : Sheet :=
  match sheets h name with Some s => s | None => blankSheet end.

(** [SpreadsheetApp.getActiveSheet()], as the sheet's name. *)
Definition getActiveSheet : M string := fun h => (Ok (activeSheet h), h).

(** [sheet.getActiveRange()] *)
Definition getActiveRange (sheet : string) : M Range :=
  fun h => (Ok (activeRange h), h).

(** [SpreadsheetApp.getActiveSpreadsheet().getSheetByName(name)]:
    [null] when there is no such sheet. *)
Definition getSheetByName (name : string) : M (option string) :=
  fun h => (Ok (match sheets h name with Some _ => Some name | None => None end), h).

(** [range.getCell(row, column)], both relative to the range, from 1. *)
Definition getCell (sheet : string) (range : Range) (row column : nat) : CellRef :=
  (sheet, (top range + row - 1, left range + column - 1)%nat).

(** The rows of a range of a sheet. *)
Definition rangeValues (sheet : Sheet) (range : Range) : list (list Value) :=
  map (fun i =>
         map (fun j => sheet (top range + i)%nat (left range + j)%nat)
             (seq 0 (numColumns range)))
      (seq 0 (numRows range)).

(** [range.getValues()] *)
Definition getValues (sheet : string) (range : Range) : M (list (list Value)) :=
  fun h => (Ok (rangeValues (sheetOf h sheet) range), h).

(** [cell.getValue()] *)
Definition getValue (cell : CellRef) : M Value :=
  fun h => (Ok (sheetOf h (fst cell) (fst (snd cell)) (snd (snd cell))), h).

Definition writeCell (cell : CellRef) (value : Value) (h : State) : State :=
  let '(name, (row, column)) := cell in
  let updated : Sheet :=
    fun r c => if (Nat.eqb r row && Nat.eqb c column)%bool then value
               else sheetOf h name r c in
  mkState (fun n => if String.eqb n name then Some updated else sheets h n)
          (activeSheet h) (activeRange h) (calls h).

(** [cell.setValue(value)] *)
Definition setValue (cell : CellRef) (value : Value) : M unit :=
  fun h => (Ok tt, logCalls [SetValue cell value] (writeCell cell value h)).

Definition setBackground (cell : CellRef) (colour : string) : M unit :=
  call (SetBackground cell colour).
Definition setFontColor (cell : CellRef) (colour : string) : M unit :=
  call (SetFontColor cell colour).
Definition setFontWeight (cell : CellRef) (weight : string) : M unit :=
  call (SetFontWeight cell weight).
Definition setFontStyle (cell : CellRef) (style : string) : M unit :=
  call (SetFontStyle cell style).
Definition setFontLine (cell : CellRef) (line : string) : M unit :=
  call (SetFontLine cell line).
(** [cell.setFontSize(parseInt(text))]; the text is recorded as given. *)
Definition setFontSize (cell : CellRef) (text : string) : M unit :=
  call (SetFontSize cell text).

(** [Utilities.computeDigest(alg, str)] *)
Definition computeDigest `{DigestService} (alg : DigestAlgorithm) (str : string)
  : M (list Z) :=
  fun h => (Ok (digestOf alg str), logCalls [ComputeDigest alg str] h).

(** The cell a setter call addresses. *)
Definition target (c : Call) : option CellRef :=
  match c with
  | ComputeDigest _ _ => None
  | SetValue cell _ | SetBackground cell _ | SetFontColor cell _
  | SetFontWeight cell _ | SetFontStyle cell _ | SetFontLine cell _
  | SetFontSize cell _ => Some cell
  end.

End Host.

Declare Scope script_scope.
Delimit Scope script_scope with script.
Notation "x <- m ;; k" := (Host.bind m (fun x => k))
  (at level 61, m at next level, right associativity) : script_scope.
Notation "m ;; k" := (Host.bind m (fun _ => k))
  (at level 61, right associativity) : script_scope.

(* ================================================================== *)
(** ** colour-by-value.js *)
(* ================================================================== *)

Module ColourByValue.
Import JS Host.
Local Open Scope script_scope.

Section WithDigest.
Context `{DigestService}.

Definition pastelColors : list string :=
  ["#FFB3BA"; "#BAFFC9"; "#BAE1FF"; "#FFFFBA"; "#FFB3FF"; "#B3FFF9";
   "#FFD1BA"; "#E5FFBA"; "#BAC3FF"; "#FFBAD4"; "#BAFFCE"; "#BAF0FF";
   "#FFF7BA"; "#FFB3F1"; "#B3FFE9"; "#FFBAC9"; "#D4FFBA"; "#BAD6FF";
   "#FFE3BA"; "#F1B3FF"; "#B3FFF1"; "#FFBABE"; "#C3FFBA"; "#BAFFFF";
   "#FFDEBA"; "#E1B3FF"; "#B3FFD6"; "#FFC9BA"; "#B3FFBA"; "#BAE8FF";
   "#FFCEBA"; "#D1B3FF"]%string.

Definition darkShades : list string :=
  ["#1A1A1A"; "#2B2B2B"; "#3C3C3C"; "#4D4D4D";
   "#262626"; "#333333"; "#404040"; "#595959";
   "#1F1F1F"; "#2E2E2E"; "#3D3D3D"; "#4C4C4C";
   "#232323"; "#303030"; "#3E3E3E"; "#4B4B4B"]%string.

(** [value === null || value === undefined || value === ''] *)
Definition isEmpty (value : Value) : bool :=
  strictEq value VNull || strictEq value VUndefined
  || strictEq value (VString "").

(** [getColorFromValue(value)], lines 80-102. *)
Definition getColorFromValue (value : Value) : M string :=
  if isEmpty value then
    ret "#FFFFFF"%string
  else
    let str := String_ value in
    hashBytes <- computeDigest MD5 str ;;
    let colorIndex := bitand (numberAt hashBytes 0) 0x1F in
    ret (stringAt pastelColors colorIndex).

(** [getContrastColor(backgroundColor)], lines 107-123. *)
Definition getContrastColor (backgroundColor : string) : M string :=
  hashBytes <- computeDigest MD5 backgroundColor ;;
  let colorIndex := bitand (numberAt hashBytes 0) 0x0F in
  ret (stringAt darkShades colorIndex).

Record Formatting : Type :=
  mkFormatting { bold : bool; italic : bool; underline : bool }.

(** [getRandomFormatting(value)], lines 128-152. *)
Definition getRandomFormatting (value : Value) : M Formatting :=
  if isEmpty value then
    ret (mkFormatting false false false)
  else
    let str := String_ value in
    hashBytes <- computeDigest MD5 str ;;
    let boldByte := bitand (numberAt hashBytes 1) 0xFF in
    let italicByte := bitand (numberAt hashBytes 2) 0xFF in
    let underlineByte := bitand (numberAt hashBytes 3) 0xFF in
    ret (mkFormatting (boldByte <? 102) (italicByte <? 77) (underlineByte <? 64)).

(** [values[i][j]]; the loops below only use indices in range. *)
Definition valueAt (values : list (list Value)) (i j : nat) : Value :=
  nth j (nth i values []) VUndefined.

(** The body of the loops of [randomColour], lines 25-34. *)
Definition randomColourCell (sheet : string) (range : Range)
           (values : list (list Value)) (i j : nat) : M unit :=
  let cellValue := valueAt values i j in
  let cell := getCell sheet range (i + 1) (j + 1) in
  backgroundColor <- getColorFromValue cellValue ;;
  textColor <- getContrastColor backgroundColor ;;
  setBackground cell backgroundColor ;;
  setFontColor cell textColor.

(** [randomColour()], lines 15-37. *)
Definition randomColour : M unit :=
  sheet <- getActiveSheet ;;
  range <- getActiveRange sheet ;;
  values <- getValues sheet range ;;
  forLoop (List.length values) (fun i =>
    forLoop (List.length (nth i values [])) (fun j =>
      randomColourCell sheet range values i j)).

(** The body of the second pair of loops of [randomFormat], lines
    55-72.  Lines 65-69 build a description string that is not used
    and call nothing. *)
Definition randomFormatCell (sheet : string) (range : Range)
           (values : list (list Value)) (i j : nat) : M unit :=
  let cellValue := valueAt values i j in
  let cell := getCell sheet range (i + 1) (j + 1) in
  formatting <- getRandomFormatting cellValue ;;
  setFontWeight cell (if bold formatting then "bold" else "normal") ;;
  setFontStyle cell (if italic formatting then "italic" else "normal") ;;
  setFontLine cell (if underline formatting then "underline" else "none") ;;
  backgroundColor <- getColorFromValue cellValue ;;
  ret tt.

(** [randomFormat()], lines 42-75. *)
Definition randomFormat : M unit :=
  sheet <- getActiveSheet ;;
  range <- getActiveRange sheet ;;
  randomColour ;;
  values <- getValues sheet range ;;
  forLoop (List.length values) (fun i =>
    forLoop (List.length (nth i values [])) (fun j =>
      randomFormatCell sheet range values i j)).

End WithDigest.

End ColourByValue.

(* ================================================================== *)
(** ** The utility collection: random high-contrast colours *)
(* ================================================================== *)

Module Utility.
Import JS Host.
Local Open Scope script_scope.

(** [value.toString()]: a [TypeError] on [null] and [undefined]. *)
Definition toString (value : Value) : Result string :=
  match value with
  | VUndefined =>
      Thrown (TypeError "Cannot read properties of undefined (reading 'toString')")
  | VNull =>
      Thrown (TypeError "Cannot read properties of null (reading 'toString')")
  | _ => Ok (String_ value)
  end.

(** The body of the loop of lines 633-637, on the character code. *)
Definition hashStep (hash char : Z) : Z :=
  let hash := shl hash 5 - hash + char in
  bitand hash hash.

(** Lines 632-640: the loop over the character codes, then [Math.abs]. *)
Definition hashOfCodes (codes : list Z) : Z :=
  let hash := fold_left hashStep codes 0 in
  Math_abs hash.

(** The template literal [hsl(${hue}, ${saturation}%, ${lightness}%)]. *)
Definition hsl (hue saturation lightness : Z) : string :=
  ("hsl(" ++ Number_toString hue ++ ", " ++ Number_toString saturation
    ++ "%, " ++ Number_toString lightness ++ "%)")%string.

(** [generateColourFromValue(value, type = "background")], lines
    629-655; every call in the collection passes [type]. *)
Definition generateColourFromValue (value : Value) (type : string) : Result string :=
  match toString value with
  | Thrown e => Thrown e
  | Ok str =>
      let hash := hashOfCodes (charCodes str) in
      if String.eqb type "background" then
        let hue := rem hash 360 in
        let saturation := 70 + rem hash 30 in
        let lightness := 45 + rem hash 20 in
        Ok (hsl hue saturation lightness)
      else
        let hue := rem (hash + 180) 360 in
        let saturation := 80 + rem hash 20 in
        let lightness := if rem hash 2 =? 0 then 15 else 85 in
        Ok (hsl hue saturation lightness)
  end.

Record Options : Type :=
  mkOptions { bold : option bool; italic : option bool; fontSize : option string }.

(** [options = {}] *)
Definition noOptions : Options := mkOptions None None None.

Definition notFound (sheetName : string) : Exn :=
  Error ("Sheet " ++ String (ascii_of_nat 34) (sheetName
           ++ String (ascii_of_nat 34) " not found"))%string.

(** [colourCellByValueRandom(sheetName, cellAddress, value, options)],
    lines 667-703. *)
Definition colourCellByValueRandom (sheetName : string) (cellAddress : nat * nat)
           (value : Value) (options : Options) : M unit :=
  sheet <- getSheetByName sheetName ;;
  match sheet with
  | None => throw (notFound sheetName)
  | Some sheet =>
      let cell : CellRef := (sheet, cellAddress) in
      (if negb (strictEq value VUndefined) && negb (strictEq value VNull) then
         currentValue <- getValue cell ;;
         if negb (strictEq currentValue value) then setValue cell value
         else ret tt
       else ret tt) ;;
      backgroundColour <- lift (generateColourFromValue value "background") ;;
      foregroundColour <- lift (generateColourFromValue value "foreground") ;;
      setBackground cell backgroundColour ;;
      setFontColor cell foregroundColour ;;
      (match bold options with
       | Some b => setFontWeight cell (if b then "bold" else "normal")
       | None => ret tt
       end) ;;
      (match italic options with
       | Some b => setFontStyle cell (if b then "italic" else "normal")
       | None => ret tt
       end) ;;
      (match fontSize options with
       | Some text => if String.eqb text "" then ret tt else setFontSize cell text
       | None => ret tt
       end)
  end.

(** [colourRangeByValueRandom(sheetName, range, options)], lines
    711-728. *)
Definition colourRangeByValueRandom (sheetName : string) (range : Range)
           (options : Options) : M unit :=
  sheet <- getSheetByName sheetName ;;
  match sheet with
  | None => throw (notFound sheetName)
  | Some sheet =>
      values <- getValues sheet range ;;
      forEach values (fun row rowIndex =>
        forEach row (fun cellValue colIndex =>
          if negb (strictEq cellValue VNull)
             && negb (strictEq cellValue VUndefined)
             && negb (strictEq cellValue (VString ""))
          then
            let cellAddress := snd (getCell sheet range (rowIndex + 1) (colIndex + 1)) in
            colourCellByValueRandom sheetName cellAddress cellValue options
          else ret tt))
  end.

(** [colourCellRandom(sheetName, cellAddress, value, bold = true)],
    lines 739-765; an absent [bold] is [None]. *)
Definition colourCellRandom (sheetName : string) (cellAddress : nat * nat)
           (value : Value) (bold : option bool) : M string :=
  let bold := match bold with Some b => b | None => true end in
  tryCatch
    (sheet <- getSheetByName sheetName ;;
     match sheet with
     | None => ret "Error: Sheet not found"%string
     | Some sheet =>
         let cell : CellRef := (sheet, cellAddress) in
         backgroundColour <- lift (generateColourFromValue value "background") ;;
         foregroundColour <- lift (generateColourFromValue value "foreground") ;;
         setBackground cell backgroundColour ;;
         setFontColor cell foregroundColour ;;
         (if bold then setFontWeight cell "bold" else ret tt) ;;
         ret "Cell coloured with random high contrast colours"%string
     end)
    (fun error => ret ("Error: " ++ message error)%string).

(** [colourRangeRandom(sheetName, range, bold = true)], lines 775-783. *)
Definition colourRangeRandom (sheetName : string) (range : Range)
           (bold : option bool) : M string :=
  let bold := match bold with Some b => b | None => true end in
  tryCatch
    (let options := mkOptions (Some bold) None None in
     colourRangeByValueRandom sheetName range options ;;
     ret "Range coloured with random high contrast colours"%string)
    (fun error => ret ("Error: " ++ message error)%string).

End Utility.

(* ================================================================== *)
(** ** Functional models used in the statements *)
(* ================================================================== *)

Module Model.
Import JS Host ColourByValue.

(** The rolling hash in the words of the specification:
    [hash = hash*31 + charCode], wrapped to signed 32 bits at each
    step, then the absolute value. *)
Definition wrapSigned32 (z : Z) : Z :=
  let u := z mod 2 ^ 32 in
  if u <? 2 ^ 31 then u else u - 2 ^ 32.

Definition polynomialHash (codes : list Z) : Z :=
  Z.abs (fold_left (fun hash charCode => wrapSigned32 (hash * 31 + charCode))
                   codes 0).

Section WithDigest.
Context `{DigestService}.

(** The colours and the emphasis that the discrete pipeline derives
    from a value, as functions of the digest. *)
Definition backgroundOf (value : Value) : string :=
  if isEmpty value then "#FFFFFF"%string
  else stringAt pastelColors
                (bitand (numberAt (digestOf MD5 (String_ value)) 0) 0x1F).

Definition textOf (backgroundColor : string) : string :=
  stringAt darkShades (bitand (numberAt (digestOf MD5 backgroundColor) 0) 0x0F).

Definition formattingOf (value : Value) : Formatting :=
  if isEmpty value then mkFormatting false false false
  else
    let hashBytes := digestOf MD5 (String_ value) in
    mkFormatting (bitand (numberAt hashBytes 1) 0xFF <? 102)
                 (bitand (numberAt hashBytes 2) 0xFF <? 77)
                 (bitand (numberAt hashBytes 3) 0xFF <? 64).

(** The digest calls that deriving a style attribute from a value
    makes: none for an empty value. *)
Definition valueDigests (value : Value) : list Call :=
  if isEmpty value then [] else [ComputeDigest MD5 (String_ value)].

(** The calls of one iteration of [randomColour] ... *)
Definition colourCalls (cell : CellRef) (value : Value) : list Call :=
  valueDigests value
  ++ [ComputeDigest MD5 (backgroundOf value);
      SetBackground cell (backgroundOf value);
      SetFontColor cell (textOf (backgroundOf value))].

(** ... and of one iteration of the second loops of [randomFormat]. *)
Definition formatCalls (cell : CellRef) (value : Value) : list Call :=
  valueDigests value
  ++ [SetFontWeight cell (if bold (formattingOf value) then "bold" else "normal");
      SetFontStyle cell (if italic (formattingOf value) then "italic" else "normal");
      SetFontLine cell (if underline (formattingOf value) then "underline" else "none")]
  ++ valueDigests value.

End WithDigest.

(** The calls of a pass over the cells of a range, row by row. *)
Definition overCells (sheet : string) (range : Range) (values : list (list Value))
           (perCell : CellRef -> Value -> list Call) : list Call :=
  flat_map (fun i =>
    flat_map (fun j => perCell (getCell sheet range (i + 1) (j + 1))
                               (valueAt values i j))
             (seq 0 (List.length (nth i values []))))
    (seq 0 (List.length values)).

(** The values of the selection, as [getValues] returns them. *)
Definition selected (h : State) : list (list Value) :=
  rangeValues (sheetOf h (activeSheet h)) (activeRange h).

(** Run from [h], the computation [m] only appends calls, all of which
    satisfy [P]. *)
Definition appends {A} (P : Call -> Prop) (m : M A) (h : State) : Prop :=
  exists new, calls (snd (m h)) = calls h ++ new /\ Forall P new.

Definition isWrite (c : Call) : bool :=
  match target c with Some _ => true | None => false end.

(** No style attribute is computed (no digest is asked for) once a
    write to the host has been made. *)
Fixpoint computedBeforeWritten (cs : list Call) : bool :=
  match cs with
  | [] => true
  | c :: rest =>
      if isWrite c then forallb isWrite rest else computedBeforeWritten rest
  end.

End Model.

(* ================================================================== *)
(** ** A concrete host *)
(* ================================================================== *)

Module Sample.
Import JS Host.

(** Sheet1: A1 = "Apple", B1 empty, A2 = 42, B2 = "Banana"; everything
    else blank. *)
Definition sheet1 : Sheet :=
  fun row column =>
    match row, column with
    | 1%nat, 1%nat => VString "Apple"
    | 2%nat, 1%nat => VNumber 42
    | 2%nat, 2%nat => VString "Banana"
    | _, _ => VString ""
    end.

(** Sheet1 is the active sheet, with the given selection. *)
Definition host (selection : Range) : State :=
  mkState (fun name => if String.eqb name "Sheet1" then Some sheet1 else None)
          "Sheet1" selection [].

Definition A1 : Range := mkRange 1 1 1 1.
Definition B1 : Range := mkRange 1 2 1 1.
Definition A1B2 : Range := mkRange 1 1 2 2.

End Sample.

(* ================================================================== *)
(** ** Strings of the language: lower case and substring search *)
(* ================================================================== *)

Module JSString.

(** [toLowerCase] on one code unit below 256: A-Z and the accented
    capitals U+00C0-U+00DE, the multiplication sign U+00D7 apart. *)
Definition lowerCode (c : Z) : Z :=
  if ((65 <=? c) && (c <=? 90)
      || (192 <=? c) && (c <=? 222) && negb (c =? 215))%bool
  then c + 32 else c.

Definition lowerAscii (a : ascii) : ascii :=
  ascii_of_N (Z.to_N (lowerCode (Z.of_N (N_of_ascii a)))).

(** [str.toLowerCase()] *)
Fixpoint toLowerCase (str : string) : string :=
  match str with
  | EmptyString => EmptyString
  | String a rest => String (lowerAscii a) (toLowerCase rest)
  end.

(** [str.startsWith(search)] *)
Definition startsWith (str search : string) : bool := String.prefix search str.

(** [str.includes(search)]: [search] starts at some position of [str]. *)
Fixpoint includes (str search : string) : bool :=
  (startsWith str search
   || match str with
      | EmptyString => false
      | String _ rest => includes rest search
      end)%bool.

End JSString.

(* ================================================================== *)
(** ** The utility collection: formula predicates *)
(* ================================================================== *)

Module Formulas.
Import JS Host JSString.

(** [hasValueRandom(cellValue)], lines 792-794. *)
Definition hasValueRandom (cellValue : Value) : bool :=
  (negb (strictEq cellValue VNull) && negb (strictEq cellValue VUndefined)
   && negb (strictEq cellValue (VString "")))%bool.

(** [x.toLowerCase()] on an argument [x] named [receiver]: only strings
    have the method. *)
Definition toLowerCaseOf (receiver : string) (x : Value) : Result string :=
  match x with
  | VString s => Ok (toLowerCase s)
  | VUndefined =>
      Thrown (TypeError "Cannot read properties of undefined (reading 'toLowerCase')")
  | VNull =>
      Thrown (TypeError "Cannot read properties of null (reading 'toLowerCase')")
  | _ => Thrown (TypeError (receiver ++ ".toLowerCase is not a function"))
  end.

(** [valueRandomColour(cellValue, targetValue)], lines 803-806. *)
Definition valueRandomColour (cellValue targetValue : Value) : Result bool :=
  if (negb (strictEq cellValue VNull) && negb (strictEq cellValue VUndefined))%bool
  then
    match Utility.toString cellValue with
    | Thrown e => Thrown e
    | Ok str =>
        match toLowerCaseOf "targetValue" targetValue with
        | Thrown e => Thrown e
        | Ok target => Ok (String.eqb (toLowerCase str) target)
        end
    end
  else Ok false.

(** [textColourCondition(cellValue, targetText)], lines 318-327: the
    body of the [try] ... *)
Definition textColourCondition_try (cellValue targetText : Value) : Result bool :=
  if (strictEq cellValue VNull || strictEq cellValue VUndefined)%bool then Ok false
  else
    match Utility.toString cellValue with
    | Thrown e => Thrown e
    | Ok str =>
        match toLowerCaseOf "targetText" targetText with
        | Thrown e => Thrown e
        | Ok target => Ok (includes (toLowerCase str) target)
        end
    end.

(** ... and the function: [catch (error) { return false; }]. *)
Definition textColourCondition (cellValue targetText : Value) : bool :=
  match textColourCondition_try cellValue targetText with
  | Ok result => result
  | Thrown _ => false
  end.

(** [str.endsWith(search)] *)
Fixpoint endsWith (str search : string) : bool :=
  (String.eqb str search
   || match str with
      | EmptyString => false
      | String _ rest => endsWith rest search
      end)%bool.

Section WithFloats.

(** The numbers that [parseFloat] yields and their comparisons are left
    abstract. *)
Variable Float : Type.
Variable parseFloat : Value -> Float.
Variables greater less greaterEqual lessEqual : Float -> Float -> bool.

(** [colourCondition(cellValue, targetValue, condition)], lines 273-309:
    the body of the [try] ... *)
Definition colourCondition_try (cellValue targetValue condition : Value)
  : Result bool :=
  if (strictEq cellValue VNull || strictEq cellValue VUndefined)%bool then Ok false
  else
    match Utility.toString cellValue with
    | Thrown e => Thrown e
    | Ok cellText =>
        let cellStr := toLowerCase cellText in
        match Utility.toString targetValue with
        | Thrown e => Thrown e
        | Ok targetText =>
            let targetStr := toLowerCase targetText in
            match toLowerCaseOf "condition" condition with
            | Thrown e => Thrown e
            | Ok name =>
                Ok (if String.eqb name "equals" then String.eqb cellStr targetStr
                    else if String.eqb name "contains" then includes cellStr targetStr
                    else if String.eqb name "greater" then
                      greater (parseFloat cellValue) (parseFloat targetValue)
                    else if String.eqb name "less" then
                      less (parseFloat cellValue) (parseFloat targetValue)
                    else if String.eqb name "greaterequal" then
                      greaterEqual (parseFloat cellValue) (parseFloat targetValue)
                    else if String.eqb name "lessequal" then
                      lessEqual (parseFloat cellValue) (parseFloat targetValue)
                    else if String.eqb name "notequals" then
                      negb (String.eqb cellStr targetStr)
                    else if String.eqb name "notcontains" then
                      negb (includes cellStr targetStr)
                    else if String.eqb name "startswith" then
                      startsWith cellStr targetStr
                    else if String.eqb name "endswith" then
                      endsWith cellStr targetStr
                    else String.eqb cellStr targetStr)
            end
        end
    end.

(** ... and the function: [catch (error) { return false; }]. *)
Definition colourCondition (cellValue targetValue condition : Value) : bool :=
  match colourCondition_try cellValue targetValue condition with
  | Ok result => result
  | Thrown _ => false
  end.

End WithFloats.

End Formulas.

(* ================================================================== *)
(** ** The utility collection: formatting by formula *)
(* ================================================================== *)

Module Formatting.
Import JS Host JSString.
Local Open Scope script_scope.

(** [getCellValue(sheetName, cellAddress)], lines 74-81. *)
Definition getCellValue (sheetName : string) (cellAddress : nat * nat) : M Value :=
  sheet <- getSheetByName sheetName ;;
  match sheet with
  | None => throw (Utility.notFound sheetName)
  | Some sheet => Host.getValue (sheet, cellAddress)
  end.

(** [getValue(sheetName, cellAddress)], lines 240-246. *)
Definition getValue (sheetName : string) (cellAddress : nat * nat) : M Value :=
  tryCatch (getCellValue sheetName cellAddress)
           (fun error => ret (VString ("Error: " ++ message error))).

(** [if (colour) setter(colour)]: an absent or empty colour is falsy. *)
Definition whenTruthy (colour : option string) (setter : string -> M unit) : M unit :=
  match colour with
  | Some c => if String.eqb c "" then ret tt else setter c
  | None => ret tt
  end.

(** [if (flag !== undefined) setter(flag ? yes : no)] *)
Definition whenDefined (flag : option bool) (setter : string -> M unit)
           (yes no : string) : M unit :=
  match flag with
  | Some b => setter (if b then yes else no)
  | None => ret tt
  end.

(** [colourCellFormat(sheetName, cellAddress, backgroundColour,
    fontColour)], lines 183-204. *)
Definition colourCellFormat (sheetName : string) (cellAddress : nat * nat)
           (backgroundColour fontColour : option string) : M string :=
  tryCatch
    (sheet <- getSheetByName sheetName ;;
     match sheet with
     | None => ret "Error: Sheet not found"%string
     | Some sheet =>
         let cell : CellRef := (sheet, cellAddress) in
         whenTruthy backgroundColour (setBackground cell) ;;
         whenTruthy fontColour (setFontColor cell) ;;
         ret "Formatting applied successfully"%string
     end)
    (fun error => ret ("Error: " ++ message error)%string).

(** [formatCell(sheetName, cellAddress, value, backgroundColour,
    fontColour, bold, italic, underline)], lines 508-542. *)
Definition formatCell (sheetName : string) (cellAddress : nat * nat) (value : Value)
           (backgroundColour fontColour : option string)
           (bold italic underline : option bool) : M string :=
  tryCatch
    (sheet <- getSheetByName sheetName ;;
     match sheet with
     | None => ret "Error: Sheet not found"%string
     | Some sheet =>
         let cell : CellRef := (sheet, cellAddress) in
         whenTruthy backgroundColour (setBackground cell) ;;
         whenTruthy fontColour (setFontColor cell) ;;
         whenDefined bold (setFontWeight cell) "bold" "normal" ;;
         whenDefined italic (setFontStyle cell) "italic" "normal" ;;
         whenDefined underline (setFontLine cell) "underline" "none" ;;
         ret "Cell formatted successfully"%string
     end)
    (fun error => ret ("Error: " ++ message error)%string).

(** The variables that the [switch] of [formatByStatus] assigns;
    [None] is a variable left [undefined]. *)
Record StatusStyle : Type :=
  mkStatusStyle {
    backgroundColour : string;
    fontColour : string;
    bold : option bool;
    italic : option bool;
    underline : option bool
  }.

Definition oneOf (s : string) (labels : list string) : bool :=
  existsb (String.eqb s) labels.

(** The [switch (status.toLowerCase())] of lines 562-599. *)
Definition statusStyle (lowered : string) : StatusStyle :=
  if oneOf lowered ["complete"; "done"; "finished"]%string then
    mkStatusStyle "#d4edda" "#155724" (Some true) (Some false) None
  else if oneOf lowered ["in progress"; "pending"; "working"]%string then
    mkStatusStyle "#fff3cd" "#856404" (Some false) (Some true) None
  else if oneOf lowered ["error"; "failed"; "issue"]%string then
    mkStatusStyle "#f8d7da" "#721c24" (Some true) None (Some true)
  else if oneOf lowered ["warning"; "caution"]%string then
    mkStatusStyle "#ffeaa7" "#6c5ce7" (Some true) (Some true) None
  else
    mkStatusStyle "#f8f9fa" "#495057" (Some false) (Some false) None.

(** [formatByStatus(sheetName, cellAddress, status)], lines 552-621. *)
Definition formatByStatus (sheetName : string) (cellAddress : nat * nat)
           (status : Value) : M string :=
  tryCatch
    (sheet <- getSheetByName sheetName ;;
     match sheet with
     | None => ret "Error: Sheet not found"%string
     | Some sheet =>
         let cell : CellRef := (sheet, cellAddress) in
         lowered <- lift (Formulas.toLowerCaseOf "status" status) ;;
         let style := statusStyle lowered in
         setBackground cell (backgroundColour style) ;;
         setFontColor cell (fontColour style) ;;
         whenDefined (bold style) (setFontWeight cell) "bold" "normal" ;;
         whenDefined (italic style) (setFontStyle cell) "italic" "normal" ;;
         whenDefined (underline style) (setFontLine cell) "underline" "none" ;;
         ret "Status formatted successfully"%string
     end)
    (fun error => ret ("Error: " ++ message error)%string).

End Formatting.

(* ================================================================== *)
(** ** What a cell looks like after a record of calls *)
(* ================================================================== *)

Module Render.
Import JS Host.

Definition cellRef_eqb (a b : CellRef) : bool :=
  (String.eqb (fst a) (fst b)
   && Nat.eqb (fst (snd a)) (fst (snd b))
   && Nat.eqb (snd (snd a)) (snd (snd b)))%bool.

(** Does the call address the cell? *)
Definition addresses (cell : CellRef) (c : Call) : bool :=
  match target c with
  | Some cell' => cellRef_eqb cell cell'
  | None => false
  end.

(** The calls of a record that address a cell, in order. *)
Definition callsOn (cell : CellRef) (cs : list Call) : list Call :=
  filter (addresses cell) cs.

(** The attributes of a cell that the scripts set; [None] is an
    attribute that no call has set. *)
Record Style : Type :=
  mkStyle {
    background : option string;
    fontColor : option string;
    fontWeight : option string;
    fontStyle : option string;
    fontLine : option string
  }.

Definition unset : Style := mkStyle None None None None None.

(** The effect of one call on the style of [cell]: a setter that
    addresses it overwrites its attribute. *)
Definition restyle (cell : CellRef) (st : Style) (c : Call) : Style :=
  if addresses cell c then
    match c with
    | SetBackground _ x =>
        mkStyle (Some x) (fontColor st) (fontWeight st) (fontStyle st) (fontLine st)
    | SetFontColor _ x =>
        mkStyle (background st) (Some x) (fontWeight st) (fontStyle st) (fontLine st)
    | SetFontWeight _ x =>
        mkStyle (background st) (fontColor st) (Some x) (fontStyle st) (fontLine st)
    | SetFontStyle _ x =>
        mkStyle (background st) (fontColor st) (fontWeight st) (Some x) (fontLine st)
    | SetFontLine _ x =>
        mkStyle (background st) (fontColor st) (fontWeight st) (fontStyle st) (Some x)
    | _ => st
    end
  else st.

(** The style of [cell] after the calls [cs], starting from [st]. *)
Definition styleAfter (cell : CellRef) (cs : list Call) (st : Style) : Style :=
  fold_left (restyle cell) cs st.

(** A call of the discrete pipeline: a digest, or a style setter on a
    cell of the range; never [setValue] nor [setFontSize]. *)
Definition styleCallWithin (name : string) (range : Range) (c : Call) : Prop :=
  match c with
  | ComputeDigest _ _ => True
  | SetValue _ _ | SetFontSize _ _ => False
  | SetBackground cell _ | SetFontColor cell _ | SetFontWeight cell _
  | SetFontStyle cell _ | SetFontLine cell _ =>
      exists i j, (i < numRows range)%nat /\ (j < numColumns range)%nat
                  /\ cell = (name, (top range + i, left range + j)%nat)
  end.

End Render.

(* ================================================================== *)
(** ** The calls of the random high-contrast callers *)
(* ================================================================== *)

Module Effects.
Import JS Host Utility.

(** The colour that the generator returns; the empty string stands for
    the cases where it throws. *)
Definition generated (value : Value) (type : string) : string :=
  match generateColourFromValue value type with
  | Ok colour => colour
  | Thrown _ => ""%string
  end.

(** The calls that the [options] of [colourCellByValueRandom] add. *)
Definition optionCalls (cell : CellRef) (options : Options) : list Call :=
  match bold options with
  | Some b => [SetFontWeight cell (if b then "bold" else "normal")]
  | None => []
  end
  ++ match italic options with
     | Some b => [SetFontStyle cell (if b then "italic" else "normal")]
     | None => []
     end
  ++ match fontSize options with
     | Some text => if String.eqb text "" then [] else [SetFontSize cell text]
     | None => []
     end.

(** The host after the value of the cell was compared with [value] and
    [value] written when they differ. *)
Definition storeValue (cell : CellRef) (value : Value) (h : State) : State :=
  if strictEq (sheetOf h (fst cell) (fst (snd cell)) (snd (snd cell))) value then h
  else logCalls [SetValue cell value] (writeCell cell value h).

(** The calls of [colourRangeByValueRandom] for one cell of the range
    that holds [value]. *)
Definition rangeCellCalls (options : Options) (cell : CellRef) (value : Value)
  : list Call :=
  if Formulas.hasValueRandom value then
    (if strictEq value value then [] else [SetValue cell value])
    ++ [SetBackground cell (generated value "background");
        SetFontColor cell (generated value "foreground")]
    ++ optionCalls cell options
  else [].

(** The call of [if (colour) setter(colour)] ... *)
Definition truthyCall (colour : option string) (setter : string -> Call) : list Call :=
  match colour with
  | Some c => if String.eqb c "" then [] else [setter c]
  | None => []
  end.

(** ... and of [if (flag !== undefined) setter(flag ? yes : no)]. *)
Definition flagCall (flag : option bool) (setter : string -> Call) (yes no : string)
  : list Call :=
  match flag with
  | Some b => [setter (if b then yes else no)]
  | None => []
  end.

(** The calls of [formatCell] when the sheet exists. *)
Definition formatCellCalls (cell : CellRef) (backgroundColour fontColour : option string)
           (bold italic underline : option bool) : list Call :=
  truthyCall backgroundColour (SetBackground cell)
  ++ truthyCall fontColour (SetFontColor cell)
  ++ flagCall bold (SetFontWeight cell) "bold" "normal"
  ++ flagCall italic (SetFontStyle cell) "italic" "normal"
  ++ flagCall underline (SetFontLine cell) "underline" "none".

(** The calls of [formatByStatus] for the variables of its [switch]. *)
Definition statusCalls (cell : CellRef) (style : Formatting.StatusStyle) : list Call :=
  [SetBackground cell (Formatting.backgroundColour style);
   SetFontColor cell (Formatting.fontColour style)]
  ++ flagCall (Formatting.bold style) (SetFontWeight cell) "bold" "normal"
  ++ flagCall (Formatting.italic style) (SetFontStyle cell) "italic" "normal"
  ++ flagCall (Formatting.underline style) (SetFontLine cell) "underline" "none".

End Effects.


(* ================================================================== *)
(** ** The digest of the host *)
(* ================================================================== *)

Section HostDigest.
Import JS Host.

Example md5_empty :
  MD5.hex (MD5.digest "") = "d41d8cd98f00b204e9800998ecf8427e"%string.
Proof. vm_compute. reflexivity. Qed.

Example md5_abc :
  MD5.hex (MD5.digest "abc") = "900150983cd24fb0d6963f7d28e17f72"%string.
Proof. vm_compute. reflexivity. Qed.

Example md5_white :
  MD5.hex (MD5.digest "#FFFFFF") = "262da8014d7d6e3c30cd4b6a9bb7a338"%string.
Proof. vm_compute. reflexivity. Qed.

Example md5_two_blocks :
  MD5.hex (MD5.digest "aaaaaaaaaaaaaaaaaaaaaaaaaaaaaaaaaaaaaaaaaaaaaaaaaaaaaaaa")
  = "3b0c8ac703f828b04c6c197006d17218"%string.
Proof. vm_compute. reflexivity. Qed.

Lemma bytesLE_length (count : nat) (w : Z) :
  List.length (MD5.bytesLE count w) = count.
Proof. unfold MD5.bytesLE. now rewrite length_map, length_seq. Qed.

Lemma signedByte_range (b : Z) :
  0 <= b < 256 -> - 128 <= MD5.signedByte b <= 127.
Proof.
  intros Hb. unfold MD5.signedByte.
  destruct (Z.ltb_spec b 128); lia.
Qed.

Lemma bytesLE_range (count : nat) (w : Z) :
  Forall (fun b => 0 <= b < 256) (MD5.bytesLE count w).
Proof.
  unfold MD5.bytesLE. apply Forall_map, Forall_forall. intros k _.
  apply Z.mod_pos_bound. lia.
Qed.

(** The digest that the host returns has sixteen bytes, each a signed
    byte. *)
Lemma md5_digest_shape (str : string) :
  List.length (digestOf (DigestService := md5Service) MD5 str) = 16%nat
  /\ Forall (fun b => - 128 <= b <= 127)
            (digestOf (DigestService := md5Service) MD5 str).
Proof.
  unfold digestOf, md5Service, MD5.digest, MD5.digestBytes.
  destruct (MD5.blocks _ _ _) as [a b c d]. split.
  - now rewrite length_map, !length_app, !bytesLE_length.
  - apply Forall_map. rewrite !Forall_app.
    repeat split;
      (eapply Forall_impl; [| apply bytesLE_range]);
      intros x Hx; now apply signedByte_range.
Qed.

End HostDigest.

(* ================================================================== *)
(** ** 32-bit arithmetic of the language *)
(* ================================================================== *)

Section Int32.
Import JS.

Lemma toInt32_range (z : Z) : - 2 ^ 31 <= toInt32 z < 2 ^ 31.
Proof.
  unfold toInt32.
  pose proof (Z.mod_pos_bound (z + 2 ^ 31) (2 ^ 32) ltac:(lia)). lia.
Qed.

Lemma toInt32_small (z : Z) : - 2 ^ 31 <= z < 2 ^ 31 -> toInt32 z = z.
Proof.
  intros Hz. unfold toInt32. rewrite Z.mod_small; lia.
Qed.

(** ToInt32 only depends on the residue modulo 2^32. *)
Lemma toInt32_congr (x y : Z) :
  x mod 2 ^ 32 = y mod 2 ^ 32 -> toInt32 x = toInt32 y.
Proof.
  intros Hxy. unfold toInt32.
  rewrite <- (Z.add_mod_idemp_l x), <- (Z.add_mod_idemp_l y) by lia.
  now rewrite Hxy.
Qed.

Lemma toInt32_mod (z : Z) : toInt32 z mod 2 ^ 32 = z mod 2 ^ 32.
Proof.
  unfold toInt32.
  rewrite <- Zminus_mod_idemp_l, Z.mod_mod by lia.
  rewrite Zminus_mod_idemp_l. f_equal. lia.
Qed.

Lemma toInt32_idem (z : Z) : toInt32 (toInt32 z) = toInt32 z.
Proof. apply toInt32_small, toInt32_range. Qed.

Lemma toInt32_decomp (z : Z) : exists q, toInt32 z = z + q * 2 ^ 32.
Proof.
  exists (- ((z + 2 ^ 31) / 2 ^ 32)). unfold toInt32.
  pose proof (Z.div_mod (z + 2 ^ 31) (2 ^ 32) ltac:(lia)). lia.
Qed.

(** Masking with the [n] low bits set, [n] below 32, keeps the residue
    modulo [2^n]: in particular the result lies in [0, 2^n). *)
Lemma bitand_ones (a n : Z) :
  0 <= n < 32 -> bitand a (Z.ones n) = a mod 2 ^ n.
Proof.
  intros Hn. unfold bitand.
  assert (Hpow : 0 < 2 ^ n <= 2 ^ 31).
  { split; [apply Z.pow_pos_nonneg; lia | apply Z.pow_le_mono_r; lia]. }
  assert (Hones : - 2 ^ 31 <= Z.ones n < 2 ^ 31).
  { rewrite Z.ones_equiv. lia. }
  rewrite (toInt32_small (Z.ones n)) by assumption.
  rewrite Z.land_ones by lia.
  destruct (toInt32_decomp a) as [q Hq]. rewrite Hq.
  replace (q * 2 ^ 32) with (q * 2 ^ (32 - n) * 2 ^ n)
    by (rewrite <- Z.mul_assoc, <- Z.pow_add_r by lia; do 2 f_equal; lia).
  rewrite Z_mod_plus_full.
  pose proof (Z.mod_pos_bound a (2 ^ n) ltac:(lia)).
  apply toInt32_small. lia.
Qed.

Lemma bitand_0x1F (a : Z) : bitand a 0x1F = a mod 32.
Proof. apply (bitand_ones a 5). lia. Qed.

Lemma bitand_0x0F (a : Z) : bitand a 0x0F = a mod 16.
Proof. apply (bitand_ones a 4). lia. Qed.

Lemma bitand_0xFF (a : Z) : bitand a 0xFF = a mod 256.
Proof. apply (bitand_ones a 8). lia. Qed.

Lemma bitand_diag (a : Z) : bitand a a = toInt32 a.
Proof. unfold bitand. rewrite Z.land_diag. apply toInt32_idem. Qed.

Lemma shl_5 (a : Z) : shl a 5 = toInt32 (toInt32 a * 32).
Proof.
  unfold shl. change (5 mod 32) with 5.
  rewrite Z.shiftl_mul_pow2 by lia. reflexivity.
Qed.

(** The signed wrap of the specification is ToInt32. *)
Lemma wrapSigned32_toInt32 (z : Z) : Model.wrapSigned32 z = toInt32 z.
Proof.
  unfold Model.wrapSigned32, toInt32. cbv zeta.
  pose proof (Z.mod_pos_bound z (2 ^ 32) ltac:(lia)) as Hz.
  destruct (Z.ltb_spec (z mod 2 ^ 32) (2 ^ 31)) as [Hlt | Hge].
  - rewrite <- (Z.add_mod_idemp_l z) by lia.
    rewrite (Z.mod_small (z mod 2 ^ 32 + 2 ^ 31)) by lia. lia.
  - rewrite <- (Z.add_mod_idemp_l z) by lia.
    replace (z mod 2 ^ 32 + 2 ^ 31)
      with (z mod 2 ^ 32 - 2 ^ 31 + 1 * 2 ^ 32) by lia.
    rewrite Z_mod_plus_full.
    rewrite (Z.mod_small (z mod 2 ^ 32 - 2 ^ 31)) by lia. lia.
Qed.

End Int32.

(* ================================================================== *)
(** ** The rolling hash *)
(* ================================================================== *)

Section RollingHash.
Import JS Utility.

(** One turn of the loop is one step of the polynomial hash. *)
Lemma hashStep_polynomial (hash char : Z) :
  hashStep hash char = toInt32 (hash * 31 + char).
Proof.
  unfold hashStep. rewrite bitand_diag, shl_5.
  apply toInt32_congr.
  destruct (toInt32_decomp (toInt32 hash * 32)) as [q Hq].
  destruct (toInt32_decomp hash) as [r Hr].
  rewrite Hq, Hr.
  replace ((hash + r * 2 ^ 32) * 32 + q * 2 ^ 32 - hash + char)
    with (hash * 31 + char + (32 * r + q) * 2 ^ 32) by lia.
  apply Z_mod_plus_full.
Qed.

Lemma fold_left_cons {A B} (f : A -> B -> A) (x : B) (l : list B) (a : A) :
  fold_left f (x :: l) a = fold_left f l (f a x).
Proof. reflexivity. Qed.

Lemma hashStep_range (hash char : Z) :
  - 2 ^ 31 <= hashStep hash char < 2 ^ 31.
Proof. rewrite hashStep_polynomial. apply toInt32_range. Qed.

(** The value kept in [hash] stays a 32-bit integer throughout the
    loop ... *)
Lemma hashLoop_range (codes : list Z) (hash : Z) :
  - 2 ^ 31 <= hash < 2 ^ 31 ->
  - 2 ^ 31 <= fold_left hashStep codes hash < 2 ^ 31.
Proof.
  revert hash. induction codes as [| c codes IH]; intros hash Hh.
  - exact Hh.
  - rewrite fold_left_cons. apply IH, hashStep_range.
Qed.

(** ... so for UTF-16 code units every intermediate number of a turn is
    an integer of magnitude below 2^53, which a JavaScript number holds
    exactly. *)
Lemma hashStep_exact (hash char : Z) :
  - 2 ^ 31 <= hash < 2 ^ 31 -> 0 <= char < 2 ^ 16 ->
  Z.abs (shl hash 5) < 2 ^ 53
  /\ Z.abs (shl hash 5 - hash) < 2 ^ 53
  /\ Z.abs (shl hash 5 - hash + char) < 2 ^ 53.
Proof.
  intros Hh Hc. rewrite shl_5.
  pose proof (toInt32_range (toInt32 hash * 32)). lia.
Qed.

Lemma hashOfCodes_range (codes : list Z) : 0 <= hashOfCodes codes <= 2 ^ 31.
Proof.
  unfold hashOfCodes, Math_abs.
  pose proof (hashLoop_range codes 0 ltac:(lia)). lia.
Qed.

Lemma fold_hashStep_polynomial (codes : list Z) (hash : Z) :
  fold_left hashStep codes hash
  = fold_left (fun hash charCode => Model.wrapSigned32 (hash * 31 + charCode))
              codes hash.
Proof.
  revert hash. induction codes as [| c codes IH]; intros hash.
  - reflexivity.
  - rewrite !fold_left_cons, hashStep_polynomial, wrapSigned32_toInt32.
    apply IH.
Qed.

(** C5.  The loop [hash = ((hash << 5) - hash) + charCode;
    hash = hash & hash] over the character codes followed by [Math.abs]
    equals, for every sequence of character codes (so for every input
    string), the rolling polynomial hash [hash = hash*31 + charCode]
    wrapped to signed 32 bits at each step and then taken in absolute
    value. *)
Theorem rolling_hash_is_polynomial_hash (codes : list Z) :
  hashOfCodes codes = Model.polynomialHash codes.
Proof.
  unfold hashOfCodes, Model.polynomialHash, Math_abs.
  now rewrite fold_hashStep_polynomial.
Qed.

End RollingHash.

(* ================================================================== *)
(** ** The continuous colour generator *)
(* ================================================================== *)

Section Continuous.
Import JS Host Utility.

Lemma rem_nonneg (a b : Z) : 0 <= a -> 0 < b -> rem a b = a mod b.
Proof. intros Ha Hb. unfold rem. apply Z.rem_mod_nonneg; lia. Qed.

Lemma toString_String (value : Value) (str : string) :
  toString value = Ok str -> str = String_ value.
Proof. destruct value; simpl; intros Heq; inversion Heq; reflexivity. Qed.

Lemma toString_defined (value : Value) :
  value <> VNull -> value <> VUndefined -> toString value = Ok (String_ value).
Proof. destruct value; simpl; congruence. Qed.

(** C6.  For every value that has a string form, the background hue is
    [abs(h) mod 360], [h] the rolling hash of that string, and the
    foreground hue is [(background hue + 180) mod 360]: the colours
    generated for the two roles are the [hsl] strings below. *)
Theorem foreground_hue_is_complement (value : Value) (str : string) :
  toString value = Ok str ->
  let h := hashOfCodes (charCodes str) in
  let backgroundHue := h mod 360 in
  let foregroundHue := (backgroundHue + 180) mod 360 in
  h = Z.abs (fold_left hashStep (charCodes str) 0)
  /\ generateColourFromValue value "background"
     = Ok (hsl backgroundHue (70 + h mod 30) (45 + h mod 20))
  /\ generateColourFromValue value "foreground"
     = Ok (hsl foregroundHue (80 + h mod 20) (if h mod 2 =? 0 then 15 else 85)).
Proof.
  intros Hstr h backgroundHue foregroundHue.
  pose proof (hashOfCodes_range (charCodes str)) as Hh. fold h in Hh.
  split; [reflexivity |].
  unfold generateColourFromValue. rewrite Hstr. fold h.
  split.
  - change (String.eqb "background" "background") with true. cbv iota.
    rewrite !rem_nonneg by lia. reflexivity.
  - change (String.eqb "foreground" "background") with false. cbv iota.
    rewrite !rem_nonneg by lia.
    unfold foregroundHue, backgroundHue.
    rewrite Z.add_mod_idemp_l by lia. reflexivity.
Qed.

Lemma foreground_hue_is_complement_witness :
  generateColourFromValue (VString "X") "background" = Ok "hsl(88, 98%, 53%)"%string
  /\ generateColourFromValue (VString "X") "foreground" = Ok "hsl(268, 88%, 15%)"%string.
Proof.
  exact (proj2 (foreground_hue_is_complement (VString "X") "X" eq_refl)).
Defined.

End Continuous.

(* ================================================================== *)
(** ** Running the discrete pipeline *)
(* ================================================================== *)

Section Running.
Import JS Host ColourByValue Model.
Context `{DigestService}.

Lemma logCalls_nil (h : State) : logCalls [] h = h.
Proof. destruct h. unfold logCalls. simpl. now rewrite app_nil_r. Qed.

Lemma logCalls_app (a b : list Call) (h : State) :
  logCalls b (logCalls a h) = logCalls (a ++ b) h.
Proof. unfold logCalls. simpl. now rewrite app_assoc. Qed.

Lemma bind_Ok {A B} (m : M A) (k : A -> M B) (h h' : State) (a : A) :
  m h = (Ok a, h') -> bind m k h = k a h'.
Proof. intros Hm. unfold bind. now rewrite Hm. Qed.

Lemma getColorFromValue_run (value : Value) (h : State) :
  getColorFromValue value h
  = (Ok (backgroundOf value), logCalls (valueDigests value) h).
Proof.
  unfold getColorFromValue, backgroundOf, valueDigests.
  destruct (isEmpty value).
  - unfold ret. now rewrite logCalls_nil.
  - reflexivity.
Qed.

Lemma getContrastColor_run (backgroundColor : string) (h : State) :
  getContrastColor backgroundColor h
  = (Ok (textOf backgroundColor),
     logCalls [ComputeDigest MD5 backgroundColor] h).
Proof. reflexivity. Qed.

Lemma getRandomFormatting_run (value : Value) (h : State) :
  getRandomFormatting value h
  = (Ok (formattingOf value), logCalls (valueDigests value) h).
Proof.
  unfold getRandomFormatting, formattingOf, valueDigests.
  destruct (isEmpty value).
  - unfold ret. now rewrite logCalls_nil.
  - reflexivity.
Qed.

Lemma randomColourCell_run sheet range values i j (h : State) :
  randomColourCell sheet range values i j h
  = (Ok tt, logCalls (colourCalls (getCell sheet range (i + 1) (j + 1))
                                  (valueAt values i j)) h).
Proof.
  unfold randomColourCell, colourCalls.
  rewrite (bind_Ok _ _ _ _ _ (getColorFromValue_run _ _)).
  rewrite (bind_Ok _ _ _ _ _ (getContrastColor_run _ _)).
  unfold bind, setBackground, setFontColor, call.
  rewrite !logCalls_app, <- ?app_assoc. reflexivity.
Qed.

Lemma randomFormatCell_run sheet range values i j (h : State) :
  randomFormatCell sheet range values i j h
  = (Ok tt, logCalls (formatCalls (getCell sheet range (i + 1) (j + 1))
                                  (valueAt values i j)) h).
Proof.
  unfold randomFormatCell, formatCalls.
  rewrite (bind_Ok _ _ _ _ _ (getRandomFormatting_run _ _)).
  unfold bind at 1 2 3, setFontWeight, setFontStyle, setFontLine, call.
  rewrite (bind_Ok _ _ _ _ _ (getColorFromValue_run _ _)).
  unfold ret. rewrite !logCalls_app, <- ?app_assoc. reflexivity.
Qed.

(** A loop whose turns only append calls appends them in order. *)
Lemma forLoopFrom_run (body : nat -> M unit) (turn : nat -> list Call) :
  (forall i h, body i h = (Ok tt, logCalls (turn i) h)) ->
  forall count start h,
    forLoopFrom start count body h
    = (Ok tt, logCalls (flat_map turn (seq start count)) h).
Proof.
  intros Hbody count.
  induction count as [| count IH]; intros start h; simpl.
  - unfold ret. now rewrite logCalls_nil.
  - rewrite (bind_Ok _ _ _ _ _ (Hbody start h)).
    now rewrite IH, logCalls_app.
Qed.

Lemma overCells_run sheet range values
      (body : nat -> nat -> M unit) (perCell : CellRef -> Value -> list Call) :
  (forall i j h,
      body i j h
      = (Ok tt, logCalls (perCell (getCell sheet range (i + 1) (j + 1))
                                  (valueAt values i j)) h)) ->
  forall h,
    forLoop (List.length values) (fun i =>
      forLoop (List.length (nth i values [])) (fun j => body i j)) h
    = (Ok tt, logCalls (overCells sheet range values perCell) h).
Proof.
  intros Hbody h. unfold forLoop, overCells.
  apply forLoopFrom_run with
    (turn := fun i =>
       flat_map (fun j => perCell (getCell sheet range (i + 1) (j + 1))
                                  (valueAt values i j))
                (seq 0 (List.length (nth i values [])))).
  intros i h'. apply forLoopFrom_run. intros j h''. apply Hbody.
Qed.

Lemma randomColour_run (h : State) :
  randomColour h
  = (Ok tt, logCalls (overCells (activeSheet h) (activeRange h) (selected h)
                                colourCalls) h).
Proof.
  unfold randomColour, bind at 1 2 3, getActiveSheet, getActiveRange, getValues.
  apply overCells_run. intros i j h'. apply randomColourCell_run.
Qed.

Lemma randomFormat_run (h : State) :
  randomFormat h
  = (Ok tt, logCalls (overCells (activeSheet h) (activeRange h) (selected h)
                                colourCalls
                      ++ overCells (activeSheet h) (activeRange h) (selected h)
                                   formatCalls) h).
Proof.
  unfold randomFormat, bind at 1 2, getActiveSheet, getActiveRange.
  rewrite (bind_Ok _ _ _ _ _ (randomColour_run h)).
  unfold bind at 1, getValues.
  rewrite <- logCalls_app.
  apply overCells_run with (body := randomFormatCell (activeSheet h) (activeRange h) _).
  intros i j h'. apply randomFormatCell_run.
Qed.

End Running.

(* ================================================================== *)
(** ** The discrete palette pipeline *)
(* ================================================================== *)

Section Discrete.
Import JS Host ColourByValue Model.
Context `{DigestService}.

Lemma isEmpty_spec (value : Value) :
  isEmpty value = true
  <-> value = VNull \/ value = VUndefined \/ value = VString "".
Proof.
  unfold isEmpty. split.
  - destruct value as [| | b | n | s | d]; simpl; try discriminate; auto.
    destruct s; simpl; [auto | discriminate].
  - intros [-> | [-> | ->]]; reflexivity.
Qed.

Lemma pastelColors_length : List.length pastelColors = 32%nat.
Proof. reflexivity. Qed.

Lemma darkShades_length : List.length darkShades = 16%nat.
Proof. reflexivity. Qed.

Lemma white_not_pastel : ~ In "#FFFFFF"%string pastelColors.
Proof.
  unfold pastelColors. simpl.
  intros Hin. repeat (destruct Hin as [Heq | Hin]; [discriminate Heq |]).
  exact Hin.
Qed.

Lemma stringAt_nth_error (arr : list string) (i : Z) :
  0 <= i < Z.of_nat (List.length arr) ->
  nth_error arr (Z.to_nat i) = Some (stringAt arr i).
Proof. intros Hi. unfold stringAt. apply nth_error_nth'. lia. Qed.

Lemma stringAt_In (arr : list string) (i : Z) :
  0 <= i < Z.of_nat (List.length arr) -> In (stringAt arr i) arr.
Proof. intros Hi. unfold stringAt. apply nth_In. lia. Qed.

(** C1.  For a value that is not null, undefined or the empty string,
    the background is chosen by the first byte of the digest of
    [String(value)]: masked with [0x1F] it is an index between 0 and 31
    (the low five bits of the byte), and the colour returned is the
    entry of the 32-entry pastel palette at that index.  The digest is
    asked for once, on the string form of the value. *)
Theorem background_is_palette_entry_of_first_byte (value : Value) (h : State) :
  isEmpty value = false ->
  let firstByte := numberAt (digestOf MD5 (String_ value)) 0 in
  let colorIndex := bitand firstByte 0x1F in
  colorIndex = firstByte mod 2 ^ 5
  /\ 0 <= colorIndex <= 31
  /\ List.length pastelColors = 32%nat
  /\ nth_error pastelColors (Z.to_nat colorIndex)
     = Some (stringAt pastelColors colorIndex)
  /\ getColorFromValue value h
     = (Ok (stringAt pastelColors colorIndex),
        logCalls [ComputeDigest MD5 (String_ value)] h).
Proof.
  intros Hne firstByte colorIndex.
  assert (Hidx : colorIndex = firstByte mod 2 ^ 5) by apply bitand_0x1F.
  pose proof (Z.mod_pos_bound firstByte (2 ^ 5) ltac:(lia)) as Hb.
  repeat split; try lia.
  - apply stringAt_nth_error. rewrite pastelColors_length. lia.
  - rewrite getColorFromValue_run.
    unfold backgroundOf, valueDigests. now rewrite Hne.
Qed.

(** C2.  For a non-empty value the text colour is derived from the
    background colour just computed: the digest is asked for again, on
    the background's hex string and not on the value; its first byte
    masked with [0x0F] is an index between 0 and 15, and the text
    colour is the entry of the 16-entry dark-shade palette at that
    index.  [randomColour] writes that pair to the cell. *)
Theorem text_colour_rehashes_background (value : Value) (h : State) :
  isEmpty value = false ->
  exists backgroundColor,
    fst (getColorFromValue value h) = Ok backgroundColor
    /\ let firstByte := numberAt (digestOf MD5 backgroundColor) 0 in
       let colorIndex := bitand firstByte 0x0F in
       let textColor := stringAt darkShades colorIndex in
       colorIndex = firstByte mod 2 ^ 4
       /\ 0 <= colorIndex <= 15
       /\ List.length darkShades = 16%nat
       /\ nth_error darkShades (Z.to_nat colorIndex) = Some textColor
       /\ bind (getColorFromValue value) getContrastColor h
          = (Ok textColor,
             logCalls [ComputeDigest MD5 (String_ value);
                       ComputeDigest MD5 backgroundColor] h)
       /\ forall sheet range values i j,
            valueAt values i j = value ->
            randomColourCell sheet range values i j h
            = (Ok tt,
               logCalls
                 [ComputeDigest MD5 (String_ value);
                  ComputeDigest MD5 backgroundColor;
                  SetBackground (getCell sheet range (i + 1) (j + 1)) backgroundColor;
                  SetFontColor (getCell sheet range (i + 1) (j + 1)) textColor] h).
Proof.
  intros Hne. exists (backgroundOf value).
  rewrite getColorFromValue_run. split; [reflexivity |].
  intros firstByte colorIndex textColor.
  assert (Hidx : colorIndex = firstByte mod 2 ^ 4) by apply bitand_0x0F.
  pose proof (Z.mod_pos_bound firstByte (2 ^ 4) ltac:(lia)) as Hb.
  assert (Hdigests : valueDigests value = [ComputeDigest MD5 (String_ value)]).
  { unfold valueDigests. now rewrite Hne. }
  repeat split; try lia.
  - apply stringAt_nth_error. rewrite darkShades_length. lia.
  - rewrite (bind_Ok _ _ _ _ _ (getColorFromValue_run _ _)).
    rewrite getContrastColor_run, logCalls_app, Hdigests. reflexivity.
  - intros sheet range values i j Hval.
    rewrite randomColourCell_run, Hval.
    unfold colourCalls. rewrite Hdigests. reflexivity.
Qed.

(** C4.  For a non-empty value the emphasis is computed from the bytes
    of the digest of [String(value)] at offsets 1, 2 and 3, each taken
    in the range 0..255: bold iff byte 1 < 102, italic iff
    byte 2 < 77, underline iff byte 3 < 64. *)
Theorem formatting_thresholds_on_digest_bytes (value : Value) (h : State) :
  isEmpty value = false ->
  let hashBytes := digestOf MD5 (String_ value) in
  let byte := fun offset => numberAt hashBytes offset mod 256 in
  (bitand (numberAt hashBytes 1) 0xFF = byte 1%nat
   /\ bitand (numberAt hashBytes 2) 0xFF = byte 2%nat
   /\ bitand (numberAt hashBytes 3) 0xFF = byte 3%nat)
  /\ (0 <= byte 1%nat <= 255 /\ 0 <= byte 2%nat <= 255 /\ 0 <= byte 3%nat <= 255)
  /\ getRandomFormatting value h
     = (Ok (mkFormatting (byte 1%nat <? 102) (byte 2%nat <? 77) (byte 3%nat <? 64)),
        logCalls [ComputeDigest MD5 (String_ value)] h).
Proof.
  intros Hne hashBytes byte. unfold byte.
  pose proof (Z.mod_pos_bound (numberAt hashBytes 1) 256 ltac:(lia)).
  pose proof (Z.mod_pos_bound (numberAt hashBytes 2) 256 ltac:(lia)).
  pose proof (Z.mod_pos_bound (numberAt hashBytes 3) 256 ltac:(lia)).
  repeat split; try lia; try apply bitand_0xFF.
  rewrite getRandomFormatting_run.
  unfold formattingOf, valueDigests. rewrite Hne. cbv zeta.
  fold hashBytes. now rewrite !bitand_0xFF.
Qed.

(** C10.  [getColorFromValue] returns white exactly for null, undefined
    and the empty string; for every other value it returns one of the
    32 pastel entries, none of which is white. *)
Theorem white_background_iff_empty (value : Value) (h : State) :
  (fst (getColorFromValue value h) = Ok "#FFFFFF"%string
   <-> value = VNull \/ value = VUndefined \/ value = VString "")
  /\ (exists colour,
        fst (getColorFromValue value h) = Ok colour
        /\ (In colour pastelColors
            \/ value = VNull \/ value = VUndefined \/ value = VString ""))
  /\ List.length pastelColors = 32%nat
  /\ ~ In "#FFFFFF"%string pastelColors.
Proof.
  rewrite getColorFromValue_run. cbn [fst].
  unfold backgroundOf.
  destruct (isEmpty value) eqn:Hempty.
  - apply isEmpty_spec in Hempty.
    repeat split; auto using white_not_pastel.
    exists "#FFFFFF"%string. auto.
  - assert (Hin : In (stringAt pastelColors
                        (bitand (numberAt (digestOf MD5 (String_ value)) 0) 0x1F))
                     pastelColors).
    { apply stringAt_In. rewrite bitand_0x1F, pastelColors_length.
      pose proof (Z.mod_pos_bound (numberAt (digestOf MD5 (String_ value)) 0) 32
                    ltac:(lia)). lia. }
    split; [split | split; [| split]]; auto using white_not_pastel.
    + intros Heq. exfalso. apply white_not_pastel.
      injection Heq as Hcol. rewrite Hcol in Hin. exact Hin.
    + intros Hv. apply isEmpty_spec in Hv. congruence.
    + eexists. split; [reflexivity | left; exact Hin].
Qed.

(** C8 (as the code has it).  [randomFormat] first runs [randomColour]
    over the whole selection: for each cell in turn the background and
    the text colour are both computed (the digests are asked for)
    before either is written (last conjunct).  Only after the colours
    of all cells are written does the second pass compute the emphasis
    of each cell, write weight, style and line, and compute the
    background once more. *)
Theorem randomFormat_colours_then_formats (h : State) :
  let sheet := activeSheet h in
  let range := activeRange h in
  let values := selected h in
  randomColour h = (Ok tt, logCalls (overCells sheet range values colourCalls) h)
  /\ randomFormat h
     = (Ok tt, logCalls (overCells sheet range values colourCalls
                         ++ overCells sheet range values formatCalls) h)
  /\ (forall cell value, computedBeforeWritten (colourCalls cell value) = true).
Proof.
  split; [apply randomColour_run | split; [apply randomFormat_run |]].
  intros cell value. unfold colourCalls, valueDigests.
  destruct (isEmpty value); reflexivity.
Qed.

End Discrete.

Section DiscreteOnSample.
Import JS Host ColourByValue Model Sample.

Lemma background_is_palette_entry_of_first_byte_witness :
  getColorFromValue (H := md5Service) (VString "Apple") (host A1)
  = (Ok "#D1B3FF"%string, logCalls [ComputeDigest MD5 "Apple"] (host A1)).
Proof.
  exact (proj2 (proj2 (proj2 (proj2
    (background_is_palette_entry_of_first_byte
       (H := md5Service) (VString "Apple") (host A1) eq_refl))))).
Defined.

Lemma text_colour_rehashes_background_witness :
  bind (getColorFromValue (H := md5Service) (VString "Apple"))
       (getContrastColor (H := md5Service)) (host A1)
  = (Ok "#1F1F1F"%string,
     logCalls [ComputeDigest MD5 "Apple"; ComputeDigest MD5 "#D1B3FF"] (host A1)).
Proof.
  destruct (text_colour_rehashes_background
              (H := md5Service) (VString "Apple") (host A1) eq_refl)
    as (backgroundColor & Hbg & Htext).
  vm_compute in Hbg. injection Hbg as <-.
  exact (proj1 (proj2 (proj2 (proj2 (proj2 Htext))))).
Defined.

Lemma formatting_thresholds_on_digest_bytes_witness :
  getRandomFormatting (H := md5Service) (VString "Apple") (host A1)
  = (Ok (mkFormatting true false false),
     logCalls [ComputeDigest MD5 "Apple"] (host A1)).
Proof.
  exact (proj2 (proj2
    (formatting_thresholds_on_digest_bytes
       (H := md5Service) (VString "Apple") (host A1) eq_refl))).
Defined.

(** The 16-byte digest of the host: the first bytes for "Apple". *)
Example md5_Apple :
  MD5.hex (digestOf (DigestService := md5Service) MD5 "Apple")
  = "9f6290f4436e5a2351f12e03b6433c3c"%string.
Proof. vm_compute. reflexivity. Qed.

End DiscreteOnSample.

(* ================================================================== *)
(** ** Empty cells *)
(* ================================================================== *)

Section EmptyCells.
Import JS Host ColourByValue Model Sample.

(** An empty value is not hashed: neither function calls the host. *)
Lemma empty_value_not_hashed `{DigestService} (value : Value) (h : State) :
  isEmpty value = true ->
  getColorFromValue value h = (Ok "#FFFFFF"%string, h)
  /\ getRandomFormatting value h = (Ok (mkFormatting false false false), h).
Proof.
  intros Hempty. unfold getColorFromValue, getRandomFormatting.
  rewrite Hempty. split; reflexivity.
Qed.

(** What [randomColour] does on an empty cell, whatever the digest
    service: white is hashed and the dark shade it selects is written
    as the font colour. *)
Lemma empty_cell_colour_calls `{DigestService} sheet range values i j (h : State) :
  isEmpty (valueAt values i j) = true ->
  randomColourCell sheet range values i j h
  = (Ok tt,
     logCalls [ComputeDigest MD5 "#FFFFFF";
               SetBackground (getCell sheet range (i + 1) (j + 1)) "#FFFFFF";
               SetFontColor (getCell sheet range (i + 1) (j + 1))
                            (textOf "#FFFFFF")] h).
Proof.
  intros Hempty. rewrite randomColourCell_run.
  unfold colourCalls, valueDigests, backgroundOf. now rewrite Hempty.
Qed.

(** C3 (the code at an empty cell).  With B1 empty and selected,
    [randomFormat] does not hash the value, writes a white background
    and no emphasis, but it hashes "#FFFFFF" and writes the dark shade
    "#404040" as the font colour of the cell: the text colour is not
    left at the default. *)
Theorem randomFormat_on_empty_cell :
  selected (host B1) = [[VString ""]]
  /\ randomFormat (H := md5Service) (host B1)
     = (Ok tt,
        logCalls [ComputeDigest MD5 "#FFFFFF";
                  SetBackground ("Sheet1"%string, (1, 2)%nat) "#FFFFFF";
                  SetFontColor ("Sheet1"%string, (1, 2)%nat) "#404040";
                  SetFontWeight ("Sheet1"%string, (1, 2)%nat) "normal";
                  SetFontStyle ("Sheet1"%string, (1, 2)%nat) "normal";
                  SetFontLine ("Sheet1"%string, (1, 2)%nat) "none"] (host B1)).
Proof.
  split; [reflexivity |].
  rewrite randomFormat_run. reflexivity.
Qed.

End EmptyCells.

(* ================================================================== *)
(** ** Order of computing and writing *)
(* ================================================================== *)

Section Ordering.
Import JS Host ColourByValue Model Sample.

(** C8 (as stated, refuted).  With A1 = "Apple" selected, the calls of
    [randomFormat] are the ones listed: the digest from which the
    emphasis is derived is asked for after the background and the font
    colour of the cell are written. *)
Lemma randomFormat_computes_after_writing :
  calls (snd (randomFormat (H := md5Service) (host A1)))
  = [ComputeDigest MD5 "Apple";
     ComputeDigest MD5 "#D1B3FF";
     SetBackground ("Sheet1"%string, (1, 1)%nat) "#D1B3FF";
     SetFontColor ("Sheet1"%string, (1, 1)%nat) "#1F1F1F";
     ComputeDigest MD5 "Apple";
     SetFontWeight ("Sheet1"%string, (1, 1)%nat) "bold";
     SetFontStyle ("Sheet1"%string, (1, 1)%nat) "normal";
     SetFontLine ("Sheet1"%string, (1, 1)%nat) "none";
     ComputeDigest MD5 "Apple"]
  /\ computedBeforeWritten
       (calls (snd (randomFormat (H := md5Service) (host A1)))) = false.
Proof.
  rewrite randomFormat_run. split; vm_compute; reflexivity.
Qed.

End Ordering.

(* ================================================================== *)
(** ** Digests and canonical forms *)
(* ================================================================== *)

Section Digests.
Import JS Host ColourByValue Utility.

(** C9 (as stated, refuted).  "Aa" and "BB" are different canonical
    forms with the same rolling hash: 65*31 + 97 = 66*31 + 66 = 2112.
    The equivalence between equal digests and equal canonical forms
    fails from left to right. *)
Lemma rolling_hash_collision :
  hashOfCodes (charCodes (String_ (VString "Aa"))) = 2112
  /\ hashOfCodes (charCodes (String_ (VString "BB"))) = 2112
  /\ String_ (VString "Aa") <> String_ (VString "BB")
  /\ ~ (hashOfCodes (charCodes (String_ (VString "Aa")))
        = hashOfCodes (charCodes (String_ (VString "BB")))
        <-> String_ (VString "Aa") = String_ (VString "BB")).
Proof.
  repeat split; try (vm_compute; reflexivity).
  - discriminate.
  - intros [Himp _]. specialize (Himp eq_refl). discriminate Himp.
Qed.

(** C9 (as the code has it).  Values with equal canonical string forms
    have equal digests, for the digest service and for the rolling
    hash; so when neither is empty they get the same discrete colour
    and emphasis, and when both have a string form, the same continuous
    colours. *)
Theorem equal_canonical_forms_equal_digests `{DigestService} (v1 v2 : Value) :
  String_ v1 = String_ v2 ->
  digestOf MD5 (String_ v1) = digestOf MD5 (String_ v2)
  /\ hashOfCodes (charCodes (String_ v1)) = hashOfCodes (charCodes (String_ v2))
  /\ (isEmpty v1 = isEmpty v2 ->
      forall h, getColorFromValue v1 h = getColorFromValue v2 h
                /\ getRandomFormatting v1 h = getRandomFormatting v2 h)
  /\ (forall s1 s2 type,
        toString v1 = Ok s1 -> toString v2 = Ok s2 ->
        generateColourFromValue v1 type = generateColourFromValue v2 type).
Proof.
  intros Hcanon. split; [| split; [| split]].
  - now rewrite Hcanon.
  - now rewrite Hcanon.
  - intros Hempty h. split.
    + unfold getColorFromValue. rewrite Hempty, Hcanon. reflexivity.
    + unfold getRandomFormatting. rewrite Hempty, Hcanon. reflexivity.
  - intros s1 s2 type Hs1 Hs2. unfold generateColourFromValue.
    rewrite Hs1, Hs2.
    apply toString_String in Hs1, Hs2. subst s1 s2. now rewrite Hcanon.
Qed.

Lemma equal_canonical_forms_equal_digests_witness :
  digestOf (DigestService := md5Service) MD5 (String_ (VNumber 42))
  = digestOf (DigestService := md5Service) MD5 (String_ (VString "42"))
  /\ hashOfCodes (charCodes (String_ (VNumber 42)))
     = hashOfCodes (charCodes (String_ (VString "42"))).
Proof.
  pose proof (equal_canonical_forms_equal_digests
                (H := md5Service) (VNumber 42) (VString "42") eq_refl)
    as (Hdigest & Hhash & _).
  exact (conj Hdigest Hhash).
Defined.

End Digests.

(* ================================================================== *)
(** ** Callers of the continuous colour generator *)
(* ================================================================== *)

Section Callers.
Import JS Host Utility Model Sample.

(** *** Computations that only append calls *)

Lemma appends_weaken {A} (P Q : Call -> Prop) (m : M A) (h : State) :
  (forall c, P c -> Q c) -> appends P m h -> appends Q m h.
Proof.
  intros HPQ (new & Hcalls & Hnew). exists new. split; [exact Hcalls |].
  eapply Forall_impl; eauto.
Qed.

Lemma appends_silent {A} (P : Call -> Prop) (m : M A) (h : State) :
  calls (snd (m h)) = calls h -> appends P m h.
Proof.
  intros Hcalls. exists []. split; [now rewrite app_nil_r | constructor].
Qed.

Lemma appends_call (P : Call -> Prop) (c : Call) (h : State) :
  P c -> appends P (call c) h.
Proof. intros Hc. exists [c]. split; [reflexivity | now constructor]. Qed.

Lemma appends_setValue (P : Call -> Prop) cell value (h : State) :
  P (SetValue cell value) -> appends P (setValue cell value) h.
Proof.
  intros Hc. exists [SetValue cell value]. split; [| now constructor].
  destruct cell as [name [row column]]. reflexivity.
Qed.

Lemma appends_bind {A B} (P : Call -> Prop) (m : M A) (k : A -> M B) (h : State) :
  appends P m h ->
  (forall a h', m h = (Ok a, h') -> appends P (k a) h') ->
  appends P (bind m k) h.
Proof.
  intros (new & Hcalls & Hnew) Hk. unfold appends, bind.
  destruct (m h) as [[a | e] h'] eqn:Hm; simpl in Hcalls.
  - destruct (Hk a h' eq_refl) as (new' & Hcalls' & Hnew').
    exists (new ++ new'). split.
    + now rewrite Hcalls', Hcalls, app_assoc.
    + apply Forall_app. now split.
  - exists new. now split.
Qed.

Lemma appends_forEachFrom {A} (P : Call -> Prop) (body : A -> nat -> M unit)
      (arr : list A) :
  forall start,
    (forall k x h, nth_error arr k = Some x -> appends P (body x (start + k)%nat) h) ->
    forall h, appends P (forEachFrom start arr body) h.
Proof.
  induction arr as [| x rest IH]; intros start Hbody h.
  - now apply appends_silent.
  - cbn [forEachFrom]. apply appends_bind.
    + specialize (Hbody 0%nat x h eq_refl).
      now rewrite Nat.add_0_r in Hbody.
    + intros _ h' _. apply IH. intros k y h'' Hnth.
      replace (S start + k)%nat with (start + S k)%nat by lia.
      now apply Hbody.
Qed.

(** One step through a script: sequencing, branching, a setter, or a
    computation that leaves the record alone. *)
Ltac appends_step :=
  match goal with
  | |- appends _ (bind _ _) _ => apply appends_bind; [| intros ? ? _]
  | |- appends _ (if ?b then _ else _) _ => destruct b
  | |- appends _ (match ?o with Some _ => _ | None => _ end) _ => destruct o
  | |- appends _ (setValue _ _) _ => now apply appends_setValue
  | |- appends _ (setBackground _ _) _ => now apply appends_call
  | |- appends _ (setFontColor _ _) _ => now apply appends_call
  | |- appends _ (setFontWeight _ _) _ => now apply appends_call
  | |- appends _ (setFontStyle _ _) _ => now apply appends_call
  | |- appends _ (setFontSize _ _) _ => now apply appends_call
  | |- appends _ _ _ => now apply appends_silent
  end.

(** *** One cell *)

(** Every call of [colourCellByValueRandom] addresses the cell it is
    given. *)
Lemma colourCellByValueRandom_appends sheetName cellAddress value options (h : State) :
  appends (fun c => target c = Some (sheetName, cellAddress))
          (colourCellByValueRandom sheetName cellAddress value options) h.
Proof.
  unfold colourCellByValueRandom.
  apply appends_bind; [now apply appends_silent |].
  intros sheet h' Hsheet.
  assert (Hname : sheet = None \/ sheet = Some sheetName).
  { unfold getSheetByName in Hsheet.
    destruct (sheets h sheetName); inversion Hsheet; auto. }
  destruct Hname as [-> | ->]; [now apply appends_silent |].
  repeat appends_step.
Qed.

(** *** The range *)

Lemma rangeValues_nth_error (sheet : Sheet) (range : Range) (i j : nat)
      (row : list Value) (value : Value) :
  nth_error (rangeValues sheet range) i = Some row ->
  nth_error row j = Some value ->
  value = sheet (top range + i)%nat (left range + j)%nat
  /\ (i < numRows range)%nat /\ (j < numColumns range)%nat.
Proof.
  unfold rangeValues. intros Hrow Hvalue.
  rewrite nth_error_map in Hrow.
  destruct (nth_error (seq 0 (numRows range)) i) as [i' |] eqn:Hi;
    [| discriminate].
  pose proof (nth_error_Some (seq 0 (numRows range)) i) as Hlen.
  rewrite Hi, length_seq in Hlen.
  assert (Hi_lt : (i < numRows range)%nat) by (apply Hlen; discriminate).
  rewrite nth_error_seq in Hi.
  destruct (Nat.ltb_spec i (numRows range)); [| lia].
  injection Hi as <-. injection Hrow as <-.
  rewrite nth_error_map in Hvalue.
  destruct (nth_error (seq 0 (numColumns range)) j) as [j' |] eqn:Hj;
    [| discriminate].
  pose proof (nth_error_Some (seq 0 (numColumns range)) j) as Hlen'.
  rewrite Hj, length_seq in Hlen'.
  assert (Hj_lt : (j < numColumns range)%nat) by (apply Hlen'; discriminate).
  rewrite nth_error_seq in Hj.
  destruct (Nat.ltb_spec j (numColumns range)); [| lia].
  injection Hj as <-. injection Hvalue as <-.
  repeat split; auto.
Qed.

(** The test of the range loop is the negation of the emptiness test of
    the discrete pipeline. *)
Lemma range_test_isEmpty (value : Value) :
  (negb (strictEq value VNull) && negb (strictEq value VUndefined)
   && negb (strictEq value (VString "")))%bool
  = negb (ColourByValue.isEmpty value).
Proof.
  unfold ColourByValue.isEmpty. now rewrite !negb_orb.
Qed.

(** C7 (as the code has it).  [colourRangeByValueRandom] skips the
    cells of the range whose value is null, undefined or the empty
    string: it only appends calls to the host's record, and none of
    them addresses such a cell (no generated colour is written to it;
    the cell is left as it is). *)
Theorem range_caller_skips_empty_cells sheetName range options (h : State)
        (i j : nat) :
  (i < numRows range)%nat -> (j < numColumns range)%nat ->
  ColourByValue.isEmpty
    (sheetOf h sheetName (top range + i)%nat (left range + j)%nat) = true ->
  exists new,
    calls (snd (colourRangeByValueRandom sheetName range options h))
    = calls h ++ new
    /\ Forall (fun c => target c
                        <> Some (sheetName, (top range + i, left range + j)%nat))
              new.
Proof.
  intros Hi Hj Hempty.
  change (appends (fun c => target c
                            <> Some (sheetName, (top range + i, left range + j)%nat))
                  (colourRangeByValueRandom sheetName range options) h).
  apply appends_weaken with
    (P := fun c => exists i' j',
              target c = Some (sheetName, (top range + i', left range + j')%nat)
              /\ ColourByValue.isEmpty
                   (sheetOf h sheetName (top range + i')%nat (left range + j')%nat)
                 = false).
  { intros c (i' & j' & Htarget & Hfull) Heq.
    rewrite Htarget in Heq. injection Heq as Hrow Hcolumn.
    assert (i' = i) by lia. assert (j' = j) by lia. subst. congruence. }
  unfold colourRangeByValueRandom.
  apply appends_bind; [now apply appends_silent |].
  intros sheet h' Hsheet.
  unfold getSheetByName in Hsheet.
  destruct (sheets h sheetName) eqn:Hfound; injection Hsheet as <- <-;
    [| now apply appends_silent].
  apply appends_bind; [now apply appends_silent |].
  intros values h' Hvalues. unfold getValues in Hvalues.
  injection Hvalues as <- <-.
  apply appends_forEachFrom. intros i' row h1 Hrow.
  apply appends_forEachFrom. intros j' value h2 Hvalue.
  destruct (rangeValues_nth_error _ _ _ _ _ _ Hrow Hvalue) as (Hv & _ & _).
  rewrite range_test_isEmpty.
  destruct (ColourByValue.isEmpty value) eqn:Hfull; cbn [negb];
    [now apply appends_silent |].
  eapply appends_weaken; [| apply colourCellByValueRandom_appends].
  cbn beta. intros c Htarget. exists i', j'. split.
  - rewrite Htarget. unfold getCell. cbn [snd]. do 3 f_equal; lia.
  - now rewrite <- Hv.
Qed.

Lemma range_caller_skips_empty_cells_witness :
  exists new,
    calls (snd (colourRangeByValueRandom "Sheet1" A1B2 noOptions (host A1B2)))
    = calls (host A1B2) ++ new
    /\ Forall (fun c => target c <> Some ("Sheet1"%string, (1, 2)%nat)) new.
Proof.
  apply (range_caller_skips_empty_cells "Sheet1" A1B2 noOptions (host A1B2) 0 1);
    [ repeat constructor | repeat constructor | reflexivity ].
Defined.

(** C7 (as stated, refuted).  The single-cell callers have no bypass:
    given the empty string, [colourCellRandom] and
    [colourCellByValueRandom] run the generator (the hash of the empty
    string is 0) and write the generated colours to the cell.  The range
    caller does skip the empty B1, but writes nothing to it: no white
    background, no default text colour. *)
Lemma continuous_callers_on_empty_values :
  ColourByValue.isEmpty (VString "") = true
  /\ colourCellRandom "Sheet1" (1, 2)%nat (VString "") None (host B1)
     = (Ok "Cell coloured with random high contrast colours"%string,
        logCalls [SetBackground ("Sheet1"%string, (1, 2)%nat) "hsl(0, 70%, 45%)";
                  SetFontColor ("Sheet1"%string, (1, 2)%nat) "hsl(180, 80%, 15%)";
                  SetFontWeight ("Sheet1"%string, (1, 2)%nat) "bold"] (host B1))
  /\ colourCellByValueRandom "Sheet1" (1, 2)%nat (VString "") noOptions (host B1)
     = (Ok tt,
        logCalls [SetBackground ("Sheet1"%string, (1, 2)%nat) "hsl(0, 70%, 45%)";
                  SetFontColor ("Sheet1"%string, (1, 2)%nat) "hsl(180, 80%, 15%)"]
                 (host B1))
  /\ calls (snd (colourRangeByValueRandom "Sheet1" A1B2 noOptions (host A1B2)))
     = [SetBackground ("Sheet1"%string, (1, 1)%nat) "hsl(258, 88%, 63%)";
        SetFontColor ("Sheet1"%string, (1, 1)%nat) "hsl(78, 98%, 15%)";
        SetBackground ("Sheet1"%string, (2, 1)%nat) "hsl(222, 82%, 47%)";
        SetFontColor ("Sheet1"%string, (2, 1)%nat) "hsl(42, 82%, 15%)";
        SetBackground ("Sheet1"%string, (2, 2)%nat) "hsl(277, 77%, 62%)";
        SetFontColor ("Sheet1"%string, (2, 2)%nat) "hsl(97, 97%, 85%)"].
Proof. repeat split; vm_compute; reflexivity. Qed.

(** On null the generator throws before anything is written: the
    statement-level caller propagates the [TypeError], the formula-level
    caller reports it. *)
Example single_cell_callers_on_null :
  colourCellByValueRandom "Sheet1" (1, 2)%nat VNull noOptions (host B1)
  = (Thrown (TypeError "Cannot read properties of null (reading 'toString')"),
     host B1)
  /\ colourCellRandom "Sheet1" (1, 2)%nat VNull None (host B1)
     = (Ok "Error: Cannot read properties of null (reading 'toString')"%string,
        host B1).
Proof. split; reflexivity. Qed.

End Callers.

(* ================================================================== *)
(** ** Styles of cells after a record of calls *)
(* ================================================================== *)

Section Rendering.
Import JS Host Render.

Lemma cellRef_eqb_eq (a b : CellRef) : cellRef_eqb a b = true <-> a = b.
Proof.
  destruct a as [sa [ra ca]], b as [sb [rb cb]]. unfold cellRef_eqb. cbn [fst snd].
  rewrite !andb_true_iff, String.eqb_eq, !Nat.eqb_eq.
  split; [intros [[-> ->] ->]; reflexivity | intros Heq; inversion Heq; auto].
Qed.

Lemma cellRef_eqb_refl (a : CellRef) : cellRef_eqb a a = true.
Proof. now apply cellRef_eqb_eq. Qed.

Lemma cellRef_eqb_neq (a b : CellRef) : a <> b -> cellRef_eqb a b = false.
Proof.
  intros Hneq. destruct (cellRef_eqb a b) eqn:Heq; [| reflexivity].
  apply cellRef_eqb_eq in Heq. contradiction.
Qed.

Lemma callsOn_app (cell : CellRef) (xs ys : list Call) :
  callsOn cell (xs ++ ys) = callsOn cell xs ++ callsOn cell ys.
Proof. apply filter_app. Qed.

Lemma callsOn_flat_map {A} (cell : CellRef) (f : A -> list Call) (l : list A) :
  callsOn cell (flat_map f l) = flat_map (fun x => callsOn cell (f x)) l.
Proof.
  induction l as [| x l IH]; [reflexivity |].
  cbn [flat_map]. now rewrite callsOn_app, IH.
Qed.

(** Calls that address another cell, or none, do not count. *)
Lemma callsOn_elsewhere (cell cell' : CellRef) (cs : list Call) :
  cell' <> cell ->
  Forall (fun c => target c = None \/ target c = Some cell') cs ->
  callsOn cell cs = [].
Proof.
  intros Hneq Hcs. induction Hcs as [| c cs Hc _ IH]; [reflexivity |].
  unfold callsOn in *. cbn [filter]. unfold addresses at 1.
  destruct Hc as [-> | ->]; [exact IH |].
  rewrite cellRef_eqb_neq by congruence. exact IH.
Qed.

(** The style of a cell only depends on the calls that address it. *)
Lemma styleAfter_callsOn (cell : CellRef) (cs : list Call) (st : Style) :
  styleAfter cell cs st = styleAfter cell (callsOn cell cs) st.
Proof.
  revert st. induction cs as [| c cs IH]; intros st; [reflexivity |].
  unfold styleAfter, callsOn in *. cbn [fold_left filter].
  destruct (addresses cell c) eqn:Haddr.
  - cbn [fold_left]. apply IH.
  - unfold restyle at 2. rewrite Haddr. apply IH.
Qed.

Lemma styleAfter_app (cell : CellRef) (xs ys : list Call) (st : Style) :
  styleAfter cell (xs ++ ys) st = styleAfter cell ys (styleAfter cell xs st).
Proof. apply fold_left_app. Qed.

Lemma flat_map_nil {A B} (f : A -> list B) (l : list A) :
  (forall x, In x l -> f x = []) -> flat_map f l = [].
Proof.
  induction l as [| x l IH]; intros Hf; [reflexivity |].
  cbn [flat_map]. rewrite (Hf x) by now left.
  apply IH. intros y Hy. apply Hf. now right.
Qed.

(** When a single index contributes, the pass reduces to it. *)
Lemma flat_map_seq_single {B} (f : nat -> list B) (n k0 : nat) :
  (k0 < n)%nat -> (forall k, (k < n)%nat -> k <> k0 -> f k = []) ->
  flat_map f (seq 0 n) = f k0.
Proof.
  induction n as [| n IH]; intros Hk0 Hf; [lia |].
  rewrite seq_S, flat_map_app. cbn [flat_map Nat.add]. rewrite app_nil_r.
  destruct (Nat.eq_dec k0 n) as [-> | Hneq].
  - rewrite flat_map_nil; [reflexivity |].
    intros k Hk. apply in_seq in Hk. apply Hf; lia.
  - rewrite (Hf n) by lia. rewrite app_nil_r. apply IH; [lia |].
    intros k Hk Hkk. apply Hf; lia.
Qed.

Lemma nth_map_seq {A} (f : nat -> A) (n i : nat) (d : A) :
  (i < n)%nat -> nth i (map f (seq 0 n)) d = f i.
Proof.
  intros Hi. rewrite (nth_indep _ d (f 0%nat)) by now rewrite length_map, length_seq.
  rewrite map_nth, seq_nth by assumption. reflexivity.
Qed.

Lemma rangeValues_length (sheet : Sheet) (range : Range) :
  List.length (rangeValues sheet range) = numRows range.
Proof. unfold rangeValues. now rewrite length_map, length_seq. Qed.

Lemma rangeValues_row (sheet : Sheet) (range : Range) (i : nat) :
  (i < numRows range)%nat ->
  nth i (rangeValues sheet range) []
  = map (fun j => sheet (top range + i)%nat (left range + j)%nat)
        (seq 0 (numColumns range)).
Proof.
  intros Hi. unfold rangeValues. now rewrite nth_map_seq.
Qed.

Lemma rangeValues_row_length (sheet : Sheet) (range : Range) (i : nat) :
  (i < numRows range)%nat ->
  List.length (nth i (rangeValues sheet range) []) = numColumns range.
Proof.
  intros Hi. rewrite rangeValues_row by assumption.
  now rewrite length_map, length_seq.
Qed.

Lemma rangeValues_valueAt (sheet : Sheet) (range : Range) (i j : nat) :
  (i < numRows range)%nat -> (j < numColumns range)%nat ->
  ColourByValue.valueAt (rangeValues sheet range) i j
  = sheet (top range + i)%nat (left range + j)%nat.
Proof.
  intros Hi Hj. unfold ColourByValue.valueAt.
  rewrite rangeValues_row by assumption. now rewrite nth_map_seq.
Qed.

Lemma getCell_absolute (sheet : string) (range : Range) (i j : nat) :
  getCell sheet range (i + 1) (j + 1)
  = (sheet, (top range + i, left range + j)%nat).
Proof. unfold getCell. do 2 f_equal; lia. Qed.

(** In a pass over the cells of a range of a sheet, the calls that
    address the cell in row [i], column [j] of the range are those of
    its own turn, provided a turn only addresses its own cell. *)
Lemma callsOn_overCells (name : string) (sheet : Sheet) (range : Range)
      (perCell : CellRef -> Value -> list Call) (i j : nat) :
  (forall cell value,
      Forall (fun c => target c = None \/ target c = Some cell) (perCell cell value)) ->
  (i < numRows range)%nat -> (j < numColumns range)%nat ->
  let cell := (name, (top range + i, left range + j)%nat) in
  callsOn cell (Model.overCells name range (rangeValues sheet range) perCell)
  = callsOn cell (perCell cell (sheet (top range + i)%nat (left range + j)%nat)).
Proof.
  intros Hlocal Hi Hj cell. unfold Model.overCells.
  rewrite callsOn_flat_map, rangeValues_length.
  rewrite (flat_map_seq_single _ _ i Hi).
  - rewrite callsOn_flat_map, rangeValues_row_length by assumption.
    rewrite (flat_map_seq_single _ _ j Hj).
    + now rewrite getCell_absolute, rangeValues_valueAt.
    + intros k Hk Hneq. apply callsOn_elsewhere with (cell' := getCell name range (i + 1) (k + 1)).
      * rewrite getCell_absolute. unfold cell. intros Heq. inversion Heq. lia.
      * apply Hlocal.
  - intros k Hk Hneq. rewrite callsOn_flat_map. apply flat_map_nil.
    intros k' _. apply callsOn_elsewhere with (cell' := getCell name range (k + 1) (k' + 1)).
    + rewrite getCell_absolute. unfold cell. intros Heq. inversion Heq. lia.
    + apply Hlocal.
Qed.

End Rendering.

(* ================================================================== *)
(** ** The discrete pipeline over a selection *)
(* ================================================================== *)

Section DiscreteSelection.
Import JS Host ColourByValue Model Render.
Context `{DigestService}.

Lemma textOf_dark (backgroundColor : string) : In (textOf backgroundColor) darkShades.
Proof.
  unfold textOf. apply stringAt_In. rewrite bitand_0x0F, darkShades_length.
  pose proof (Z.mod_pos_bound (numberAt (digestOf MD5 backgroundColor) 0) 16
                ltac:(lia)). lia.
Qed.

Lemma backgroundOf_cases (value : Value) :
  backgroundOf value = "#FFFFFF"%string \/ In (backgroundOf value) pastelColors.
Proof.
  unfold backgroundOf. destruct (isEmpty value); [now left | right].
  apply stringAt_In. rewrite bitand_0x1F, pastelColors_length.
  pose proof (Z.mod_pos_bound (numberAt (digestOf MD5 (String_ value)) 0) 32
                ltac:(lia)). lia.
Qed.

(** No dark shade is white or a pastel colour. *)
Lemma dark_is_no_background (colour : string) :
  In colour darkShades ->
  colour <> "#FFFFFF"%string /\ ~ In colour pastelColors.
Proof.
  assert (Hcheck : forallb (fun d => negb (existsb (String.eqb d)
                                             ("#FFFFFF"%string :: pastelColors)))
                           darkShades = true) by reflexivity.
  rewrite forallb_forall in Hcheck. intros Hin.
  specialize (Hcheck colour Hin). apply negb_true_iff in Hcheck.
  split.
  - intros ->. discriminate Hcheck.
  - intros Hpastel.
    assert (Hex : existsb (String.eqb colour) ("#FFFFFF"%string :: pastelColors) = true).
    { apply existsb_exists. exists colour. split; [now right | apply String.eqb_refl]. }
    congruence.
Qed.

(** [getContrastColor] returns one of the sixteen dark shades whatever
    string it is given, and for the background that [getColorFromValue]
    derives from a value (white or a pastel colour) the text colour
    differs from the background. *)
Theorem text_colour_is_dark_and_not_the_background (value : Value) (h : State) :
  (forall anyString h0,
      exists textColor,
        getContrastColor anyString h0
        = (Ok textColor, logCalls [ComputeDigest MD5 anyString] h0)
        /\ In textColor darkShades)
  /\ exists backgroundColor textColor h1,
       getColorFromValue value h = (Ok backgroundColor, h1)
       /\ fst (getContrastColor backgroundColor h1) = Ok textColor
       /\ (backgroundColor = "#FFFFFF"%string \/ In backgroundColor pastelColors)
       /\ In textColor darkShades
       /\ textColor <> backgroundColor.
Proof.
  split.
  - intros anyString h0. exists (textOf anyString).
    split; [apply getContrastColor_run | apply textOf_dark].
  - exists (backgroundOf value), (textOf (backgroundOf value)),
      (logCalls (valueDigests value) h).
    split; [apply getColorFromValue_run |].
    split; [now rewrite getContrastColor_run |].
    split; [apply backgroundOf_cases |].
    split; [apply textOf_dark |].
    destruct (dark_is_no_background _ (textOf_dark (backgroundOf value)))
      as [Hwhite Hpastel].
    destruct (backgroundOf_cases value) as [Hbg | Hbg].
    + rewrite Hbg in *. exact Hwhite.
    + intros Heq. apply Hpastel. rewrite Heq. exact Hbg.
Qed.

Lemma colourCalls_local (cell : CellRef) (value : Value) :
  Forall (fun c => target c = None \/ target c = Some cell) (colourCalls cell value).
Proof.
  unfold colourCalls, valueDigests.
  destruct (isEmpty value); cbn [app];
    repeat (apply Forall_cons; [cbn; auto |]); apply Forall_nil.
Qed.

Lemma formatCalls_local (cell : CellRef) (value : Value) :
  Forall (fun c => target c = None \/ target c = Some cell) (formatCalls cell value).
Proof.
  unfold formatCalls, valueDigests.
  destruct (isEmpty value); cbn [app];
    repeat (apply Forall_cons; [cbn; auto |]); apply Forall_nil.
Qed.

Lemma callsOn_colourCalls (cell : CellRef) (value : Value) :
  callsOn cell (colourCalls cell value)
  = [SetBackground cell (backgroundOf value);
     SetFontColor cell (textOf (backgroundOf value))].
Proof.
  unfold colourCalls, valueDigests, callsOn.
  destruct (isEmpty value); cbn [app filter addresses target];
    rewrite !cellRef_eqb_refl; reflexivity.
Qed.

Lemma callsOn_formatCalls (cell : CellRef) (value : Value) :
  callsOn cell (formatCalls cell value)
  = [SetFontWeight cell (if bold (formattingOf value) then "bold" else "normal");
     SetFontStyle cell (if italic (formattingOf value) then "italic" else "normal");
     SetFontLine cell (if underline (formattingOf value) then "underline" else "none")].
Proof.
  unfold formatCalls, valueDigests, callsOn.
  destruct (isEmpty value); cbn [app filter addresses target];
    rewrite !cellRef_eqb_refl; reflexivity.
Qed.

(** For every cell of the selection, [randomColour] sets the background
    and the font colour derived from the value of that very cell and
    leaves weight, style and line as they were; [randomFormat] sets all
    five attributes from that value.  The style of the cell before the
    run does not matter for what is set. *)
Theorem random_styles_each_selected_cell_by_its_value (h : State) (i j : nat)
        (before : Style) :
  (i < numRows (activeRange h))%nat -> (j < numColumns (activeRange h))%nat ->
  let row := (top (activeRange h) + i)%nat in
  let column := (left (activeRange h) + j)%nat in
  let cell : CellRef := (activeSheet h, (row, column)) in
  let value := sheetOf h (activeSheet h) row column in
  let backgroundColor := backgroundOf value in
  let textColor := textOf backgroundColor in
  let formatting := formattingOf value in
  exists coloured formatted,
    randomColour h = (Ok tt, logCalls coloured h)
    /\ styleAfter cell coloured before
       = mkStyle (Some backgroundColor) (Some textColor)
                 (fontWeight before) (fontStyle before) (fontLine before)
    /\ randomFormat h = (Ok tt, logCalls formatted h)
    /\ styleAfter cell formatted before
       = mkStyle (Some backgroundColor) (Some textColor)
                 (Some (if bold formatting then "bold" else "normal")%string)
                 (Some (if italic formatting then "italic" else "normal")%string)
                 (Some (if underline formatting then "underline" else "none")%string).
Proof.
  intros Hi Hj row column cell value backgroundColor textColor formatting.
  eexists. eexists.
  split; [apply randomColour_run |].
  split; [| split; [apply randomFormat_run |]].
  - rewrite styleAfter_callsOn. unfold selected, cell, row, column.
    rewrite (callsOn_overCells _ _ _ _ i j colourCalls_local Hi Hj).
    rewrite callsOn_colourCalls.
    unfold styleAfter, restyle. cbn [fold_left addresses target].
    rewrite !cellRef_eqb_refl. reflexivity.
  - rewrite styleAfter_callsOn, callsOn_app. unfold selected, cell, row, column.
    rewrite (callsOn_overCells _ _ _ _ i j colourCalls_local Hi Hj).
    rewrite (callsOn_overCells _ _ _ _ i j formatCalls_local Hi Hj).
    rewrite callsOn_colourCalls, callsOn_formatCalls.
    unfold styleAfter, restyle. cbn [fold_left app addresses target].
    rewrite !cellRef_eqb_refl. reflexivity.
Qed.

(** A pass over a range only makes the calls of the turns of its
    cells. *)
Lemma overCells_Forall (name : string) (sheet : Sheet) (range : Range)
      (perCell : CellRef -> Value -> list Call) (P : Call -> Prop) :
  (forall i j, (i < numRows range)%nat -> (j < numColumns range)%nat ->
               Forall P (perCell (name, (top range + i, left range + j)%nat)
                                 (sheet (top range + i)%nat (left range + j)%nat))) ->
  Forall P (overCells name range (rangeValues sheet range) perCell).
Proof.
  intros Hcell. unfold overCells. rewrite rangeValues_length.
  apply Forall_flat_map, Forall_forall. intros i Hi. apply in_seq in Hi.
  rewrite rangeValues_row_length by lia.
  apply Forall_flat_map, Forall_forall. intros j Hj. apply in_seq in Hj.
  rewrite getCell_absolute, rangeValues_valueAt by lia.
  apply Hcell; lia.
Qed.

End DiscreteSelection.

Section DiscreteConfined.
Import JS Host ColourByValue Model Render.
Context `{DigestService}.

(** [randomFormat] never throws, leaves the sheets (so every cell
    value) and the selection as they are, and every call it makes is a
    digest or a style setter on a cell of the selection: it never calls
    [setValue] and never touches a cell outside the selection. *)
Theorem randomFormat_only_styles_the_selection (h : State) :
  let h' := snd (randomFormat h) in
  fst (randomFormat h) = Ok tt
  /\ sheets h' = sheets h
  /\ activeSheet h' = activeSheet h
  /\ activeRange h' = activeRange h
  /\ exists new,
       calls h' = calls h ++ new
       /\ Forall (styleCallWithin (activeSheet h) (activeRange h)) new.
Proof.
  cbv zeta. rewrite randomFormat_run. cbn [fst snd].
  repeat (split; [reflexivity |]).
  eexists. split; [reflexivity |].
  unfold selected. apply Forall_app. split; apply overCells_Forall; intros i j Hi Hj.
  - unfold colourCalls, valueDigests.
    destruct (isEmpty _); cbn [app];
      repeat (apply Forall_cons; [cbn; eauto |]); apply Forall_nil.
  - unfold formatCalls, valueDigests.
    destruct (isEmpty _); cbn [app];
      repeat (apply Forall_cons; [cbn; eauto |]); apply Forall_nil.
Qed.

End DiscreteConfined.

Section SelectionOnSample.
Import JS Host ColourByValue Model Render.

Lemma random_styles_each_selected_cell_by_its_value_witness :
  exists formatted,
    randomFormat (H := md5Service) (Sample.host Sample.A1B2)
    = (Ok tt, logCalls formatted (Sample.host Sample.A1B2))
    /\ styleAfter ("Sheet1"%string, (2, 2)%nat) formatted unset
       = mkStyle (Some "#FFD1BA"%string) (Some "#3C3C3C"%string)
                 (Some "normal"%string) (Some "normal"%string) (Some "none"%string).
Proof.
  destruct (random_styles_each_selected_cell_by_its_value
              (H := md5Service) (Sample.host Sample.A1B2) 1 1 unset
              ltac:(repeat constructor) ltac:(repeat constructor))
    as (coloured & formatted & _ & _ & Hrun & Hstyle).
  exists formatted. split; [exact Hrun | exact Hstyle].
Defined.

End SelectionOnSample.

(* ================================================================== *)
(** ** The palettes under the MD5 digest of the host *)
(* ================================================================== *)

Section PalettesUnderMD5.
Import JS Host ColourByValue Model.

(** Every one of the 32 pastel colours is the background of some
    value: no index of the palette is out of reach of the masked first
    byte. *)
Theorem every_pastel_colour_is_reached :
  Forall (fun colour =>
            exists str h,
              fst (getColorFromValue (H := md5Service) (VString str) h) = Ok colour)
         pastelColors.
Proof.
  pose (reaching := ["F"; "H"; "X"; "p"; "P"; "K"; "i"; "As"; "AL"; "M"; "c";
                     "r"; "U"; "C"; "Ab"; "f"; "Q"; "O"; "L"; "AY"; "AZ"; "AV";
                     "D"; "Y"; "AB"; "T"; "E"; "n"; "At"; "B"; "v"; "A"]%string).
  assert (Hmap : map (fun str => backgroundOf (H := md5Service) (VString str)) reaching
                 = pastelColors) by (vm_compute; reflexivity).
  rewrite <- Hmap. apply Forall_map, Forall_forall. intros str _.
  exists str, (Sample.host Sample.A1). now rewrite getColorFromValue_run.
Qed.

(** The text colour is a function of the background, and there are
    only 33 backgrounds: under MD5 the shades "#1A1A1A" and "#4C4C4C"
    are never the text colour of a cell, whatever its value. *)
Theorem two_dark_shades_are_never_used (value : Value) (h : State) :
  exists backgroundColor textColor h1,
    getColorFromValue (H := md5Service) value h = (Ok backgroundColor, h1)
    /\ fst (getContrastColor (H := md5Service) backgroundColor h1) = Ok textColor
    /\ textColor <> "#1A1A1A"%string
    /\ textColor <> "#4C4C4C"%string.
Proof.
  exists (backgroundOf (H := md5Service) value),
    (textOf (H := md5Service) (backgroundOf (H := md5Service) value)),
    (logCalls (valueDigests value) h).
  split; [apply getColorFromValue_run |].
  split; [now rewrite getContrastColor_run |].
  assert (Hcheck : forallb (fun b => negb (String.eqb (textOf (H := md5Service) b) "#1A1A1A")
                                     && negb (String.eqb (textOf (H := md5Service) b) "#4C4C4C"))
                           ("#FFFFFF"%string :: pastelColors) = true)
    by (vm_compute; reflexivity).
  rewrite forallb_forall in Hcheck.
  assert (Hin : In (backgroundOf (H := md5Service) value)
                   ("#FFFFFF"%string :: pastelColors)).
  { destruct (backgroundOf_cases (H := md5Service) value) as [-> | Hp];
      [now left | now right]. }
  specialize (Hcheck _ Hin).
  apply andb_true_iff in Hcheck. destruct Hcheck as [H1 H2].
  apply negb_true_iff in H1, H2. rewrite String.eqb_neq in H1, H2.
  now split.
Qed.

End PalettesUnderMD5.

(* ================================================================== *)
(** ** The generated colours *)
(* ================================================================== *)

Section GeneratedColours.
Import JS Host Utility.

(** For every value that has a string form, the background is
    [hsl(hue, saturation%, lightness%)] with hue in 0..359, saturation
    in 70..99 and lightness in 45..64, and the foreground has hue in
    0..359, saturation in 80..99 and lightness 15 or 85: the two
    lightnesses are at least 21 points apart.  Any [type] other than
    "background" gives the foreground colour. *)
Theorem generated_colours_stay_in_range (value : Value) (str : string) :
  toString value = Ok str ->
  exists hue saturation lightness hue' saturation' lightness',
    generateColourFromValue value "background" = Ok (hsl hue saturation lightness)
    /\ (forall type, String.eqb type "background" = false ->
                     generateColourFromValue value type
                     = Ok (hsl hue' saturation' lightness'))
    /\ 0 <= hue <= 359 /\ 70 <= saturation <= 99 /\ 45 <= lightness <= 64
    /\ 0 <= hue' <= 359 /\ 80 <= saturation' <= 99
    /\ (lightness' = 15 \/ lightness' = 85)
    /\ 21 <= Z.abs (lightness' - lightness).
Proof.
  intros Hstr.
  pose proof (hashOfCodes_range (charCodes str)) as Hh.
  set (hash := hashOfCodes (charCodes str)) in *.
  exists (hash mod 360), (70 + hash mod 30), (45 + hash mod 20),
    ((hash + 180) mod 360), (80 + hash mod 20),
    (if hash mod 2 =? 0 then 15 else 85).
  pose proof (Z.mod_pos_bound hash 360 ltac:(lia)).
  pose proof (Z.mod_pos_bound hash 30 ltac:(lia)).
  pose proof (Z.mod_pos_bound hash 20 ltac:(lia)).
  pose proof (Z.mod_pos_bound (hash + 180) 360 ltac:(lia)).
  split; [| split].
  - unfold generateColourFromValue. rewrite Hstr. fold hash.
    change (String.eqb "background" "background") with true. cbv iota.
    now rewrite !rem_nonneg by lia.
  - intros type Htype. unfold generateColourFromValue.
    rewrite Hstr, Htype. fold hash. now rewrite !rem_nonneg by lia.
  - destruct (hash mod 2 =? 0); repeat split; try lia; auto.
Qed.

Lemma generated_colours_stay_in_range_witness :
  exists hue saturation lightness hue' saturation' lightness',
    generateColourFromValue (VString "Apple") "background"
    = Ok (hsl hue saturation lightness)
    /\ (forall type, String.eqb type "background" = false ->
                     generateColourFromValue (VString "Apple") type
                     = Ok (hsl hue' saturation' lightness'))
    /\ 0 <= hue <= 359 /\ 70 <= saturation <= 99 /\ 45 <= lightness <= 64
    /\ 0 <= hue' <= 359 /\ 80 <= saturation' <= 99
    /\ (lightness' = 15 \/ lightness' = 85)
    /\ 21 <= Z.abs (lightness' - lightness).
Proof.
  exact (generated_colours_stay_in_range (VString "Apple") "Apple" eq_refl).
Defined.

Lemma generate_defined (value : Value) (str type : string) :
  toString value = Ok str ->
  generateColourFromValue value type = Ok (Effects.generated value type).
Proof.
  intros Hstr. unfold Effects.generated, generateColourFromValue. rewrite Hstr.
  destruct (String.eqb type "background"); reflexivity.
Qed.

Lemma generate_throws (value : Value) (type : string) :
  value = VNull \/ value = VUndefined ->
  exists text, generateColourFromValue value type = Thrown (TypeError text).
Proof. intros [-> | ->]; eexists; reflexivity. Qed.

Lemma hasValue_toString (value : Value) :
  Formulas.hasValueRandom value = true -> toString value = Ok (String_ value).
Proof. destruct value; cbn; intros; congruence. Qed.

End GeneratedColours.

(* ================================================================== *)
(** ** Errors of the utility functions *)
(* ================================================================== *)

Section Errors.
Import JS Host Utility Formatting.

Lemma tryCatch_reports {A} (m : M A) (report : Exn -> A) (h : State) :
  exists result h', tryCatch m (fun error => ret (report error)) h = (Ok result, h').
Proof.
  unfold tryCatch. destruct (m h) as [[a | e] h']; eexists; eexists; reflexivity.
Qed.

(** The functions meant to be called from a cell never throw: whatever
    their arguments and the state of the host, they return a value. *)
Theorem formula_functions_never_throw (h : State) :
  (forall sheetName cellAddress value bold,
      exists result h', colourCellRandom sheetName cellAddress value bold h
                        = (Ok result, h'))
  /\ (forall sheetName range bold,
         exists result h', colourRangeRandom sheetName range bold h = (Ok result, h'))
  /\ (forall sheetName cellAddress backgroundColour fontColour,
         exists result h',
           colourCellFormat sheetName cellAddress backgroundColour fontColour h
           = (Ok result, h'))
  /\ (forall sheetName cellAddress value backgroundColour fontColour bold italic underline,
         exists result h',
           formatCell sheetName cellAddress value backgroundColour fontColour
                      bold italic underline h
           = (Ok result, h'))
  /\ (forall sheetName cellAddress status,
         exists result h', formatByStatus sheetName cellAddress status h = (Ok result, h'))
  /\ (forall sheetName cellAddress,
         exists result h', Formatting.getValue sheetName cellAddress h = (Ok result, h')).
Proof.
  repeat split; intros.
  - unfold colourCellRandom. apply tryCatch_reports.
  - unfold colourRangeRandom. apply tryCatch_reports.
  - unfold colourCellFormat. apply tryCatch_reports.
  - unfold formatCell. apply tryCatch_reports.
  - unfold formatByStatus. apply tryCatch_reports.
  - unfold Formatting.getValue.
    apply (tryCatch_reports _ (fun error => VString ("Error: " ++ message error))).
Qed.

(** When there is no sheet of the given name, no function writes
    anything: the host is left exactly as it was.  The functions called
    from scripts throw [Sheet "name" not found]; of those called from
    a cell, the single-cell ones answer "Error: Sheet not found" and
    the others report the thrown message. *)
Theorem missing_sheet_is_reported_and_nothing_written (h : State) (sheetName : string) :
  sheets h sheetName = None ->
  (forall cellAddress value options,
      colourCellByValueRandom sheetName cellAddress value options h
      = (Thrown (notFound sheetName), h))
  /\ (forall range options,
         colourRangeByValueRandom sheetName range options h
         = (Thrown (notFound sheetName), h))
  /\ (forall cellAddress,
         getCellValue sheetName cellAddress h = (Thrown (notFound sheetName), h))
  /\ (forall cellAddress value bold,
         colourCellRandom sheetName cellAddress value bold h
         = (Ok "Error: Sheet not found"%string, h))
  /\ (forall cellAddress backgroundColour fontColour,
         colourCellFormat sheetName cellAddress backgroundColour fontColour h
         = (Ok "Error: Sheet not found"%string, h))
  /\ (forall cellAddress value backgroundColour fontColour bold italic underline,
         formatCell sheetName cellAddress value backgroundColour fontColour
                    bold italic underline h
         = (Ok "Error: Sheet not found"%string, h))
  /\ (forall cellAddress status,
         formatByStatus sheetName cellAddress status h
         = (Ok "Error: Sheet not found"%string, h))
  /\ (forall range bold,
         colourRangeRandom sheetName range bold h
         = (Ok ("Error: " ++ message (notFound sheetName))%string, h))
  /\ (forall cellAddress,
         Formatting.getValue sheetName cellAddress h
         = (Ok (VString ("Error: " ++ message (notFound sheetName))), h)).
Proof.
  intros Hmissing.
  repeat split; intros;
    unfold colourCellByValueRandom, colourRangeByValueRandom, getCellValue,
      colourCellRandom, colourCellFormat, formatCell, formatByStatus,
      colourRangeRandom, Formatting.getValue, getCellValue,
      colourRangeByValueRandom, tryCatch, bind, getSheetByName;
    rewrite Hmissing; reflexivity.
Qed.

Lemma missing_sheet_is_reported_and_nothing_written_witness :
  colourCellByValueRandom "Sheet2" (1, 1)%nat (VString "x") noOptions
                          (Sample.host Sample.A1)
  = (Thrown (notFound "Sheet2"), Sample.host Sample.A1)
  /\ colourRangeRandom "Sheet2" Sample.A1 None (Sample.host Sample.A1)
     = (Ok ("Error: " ++ message (notFound "Sheet2"))%string, Sample.host Sample.A1).
Proof.
  pose proof (missing_sheet_is_reported_and_nothing_written
                (Sample.host Sample.A1) "Sheet2" eq_refl)
    as (Hcell & _ & _ & _ & _ & _ & _ & Hrange & _).
  split; [apply Hcell | apply Hrange].
Defined.

End Errors.

(* ================================================================== *)
(** ** Running the random high-contrast callers *)
(* ================================================================== *)

Section RandomCallers.
Import JS Host Utility Render Effects.

Lemma optionCalls_run (cell : CellRef) (options : Options) (h : State) :
  bind (match bold options with
        | Some b => setFontWeight cell (if b then "bold" else "normal")
        | None => ret tt
        end)
       (fun _ =>
          bind (match italic options with
                | Some b => setFontStyle cell (if b then "italic" else "normal")
                | None => ret tt
                end)
               (fun _ =>
                  match fontSize options with
                  | Some text =>
                      if String.eqb text "" then ret tt else setFontSize cell text
                  | None => ret tt
                  end)) h
  = (Ok tt, logCalls (optionCalls cell options) h).
Proof.
  unfold optionCalls.
  destruct options as [[b |] [i |] [text |]]; cbn [bold italic fontSize];
    try destruct (String.eqb text "");
    unfold bind, setFontWeight, setFontStyle, setFontSize, call, ret;
    rewrite ?logCalls_app, ?logCalls_nil; reflexivity.
Qed.

Lemma storeValue_run (cell : CellRef) (value : Value) (h : State) :
  bind (Host.getValue cell)
       (fun currentValue =>
          if negb (strictEq currentValue value) then setValue cell value else ret tt) h
  = (Ok tt, storeValue cell value h).
Proof.
  unfold bind, Host.getValue, storeValue.
  destruct (strictEq _ value); reflexivity.
Qed.

(** [colourCellByValueRandom] on an existing sheet and a value with a
    string form. *)
Lemma colourCellByValueRandom_run sheetName sheet cellAddress value str options
      (h : State) :
  sheets h sheetName = Some sheet ->
  toString value = Ok str ->
  colourCellByValueRandom sheetName cellAddress value options h
  = (Ok tt,
     logCalls ([SetBackground (sheetName, cellAddress) (generated value "background");
                SetFontColor (sheetName, cellAddress) (generated value "foreground")]
               ++ optionCalls (sheetName, cellAddress) options)
              (storeValue (sheetName, cellAddress) value h)).
Proof.
  intros Hsheet Hstr. unfold colourCellByValueRandom.
  unfold bind at 1, getSheetByName. rewrite Hsheet.
  assert (Hguard : (negb (strictEq value VUndefined) && negb (strictEq value VNull))%bool
                   = true).
  { destruct value; try reflexivity; discriminate Hstr. }
  rewrite Hguard.
  rewrite (bind_Ok _ _ _ _ _ (storeValue_run _ _ _)).
  rewrite (generate_defined _ _ "background" Hstr).
  rewrite (generate_defined _ _ "foreground" Hstr).
  unfold bind at 1 2 3 4, lift, setBackground, setFontColor, call.
  rewrite optionCalls_run, !logCalls_app. reflexivity.
Qed.

Lemma sheets_storeValue (cell : CellRef) (value : Value) (h : State) (name : string) :
  sheets h name <> None -> sheets (storeValue cell value h) name <> None.
Proof.
  intros Hsome. unfold storeValue. destruct (strictEq _ value); [exact Hsome |].
  destruct cell as [cellSheet [row column]].
  cbn [logCalls writeCell sheets].
  destruct (String.eqb name cellSheet); [discriminate | exact Hsome].
Qed.

Lemma sheetOf_storeValue (cell : CellRef) (value : Value) (h : State)
      (name : string) (row column : nat) :
  sheetOf (storeValue cell value h) name row column
  = if (String.eqb name (fst cell) && Nat.eqb row (fst (snd cell))
        && Nat.eqb column (snd (snd cell)))%bool
    then (if strictEq (sheetOf h (fst cell) (fst (snd cell)) (snd (snd cell))) value
          then sheetOf h name row column else value)
    else sheetOf h name row column.
Proof.
  unfold storeValue.
  destruct cell as [cellSheet [cellRow cellColumn]]. cbn [fst snd].
  destruct (strictEq (sheetOf h cellSheet cellRow cellColumn) value) eqn:Hsame.
  - now destruct (_ && _ && _)%bool.
  - unfold sheetOf at 1. cbn [logCalls writeCell sheets].
    destruct (String.eqb name cellSheet) eqn:Hname; cbn [andb].
    + apply String.eqb_eq in Hname. subst name.
      destruct (Nat.eqb row cellRow && Nat.eqb column cellColumn)%bool; reflexivity.
    + reflexivity.
Qed.

Lemma calls_writeCell (cell : CellRef) (value : Value) (h : State) :
  calls (writeCell cell value h) = calls h.
Proof. destruct cell as [name [row column]]. reflexivity. Qed.

Lemma strictEq_eq (a b : Value) : strictEq a b = true -> a = b.
Proof.
  destruct a, b; cbn; try discriminate; intros Heq; try reflexivity.
  - apply Bool.eqb_prop in Heq. now subst.
  - apply Z.eqb_eq in Heq. now subst.
  - apply String.eqb_eq in Heq. now subst.
Qed.

(** The cell holds [value] afterwards and every other cell is as
    before. *)
Lemma storeValue_contents (cell : CellRef) (value : Value) (h : State)
      (name : string) (row column : nat) :
  sheetOf (storeValue cell value h) name row column
  = if cellRef_eqb (name, (row, column)) cell then value
    else sheetOf h name row column.
Proof.
  rewrite sheetOf_storeValue.
  unfold cellRef_eqb. cbn [fst snd].
  destruct (String.eqb name (fst cell) && Nat.eqb row (fst (snd cell))
            && Nat.eqb column (snd (snd cell)))%bool eqn:Hcell; [| reflexivity].
  destruct (strictEq _ value) eqn:Hsame; [| reflexivity].
  apply strictEq_eq in Hsame. rewrite <- Hsame.
  rewrite !andb_true_iff in Hcell. destruct Hcell as [[Hn Hr] Hc].
  apply String.eqb_eq in Hn. apply Nat.eqb_eq in Hr, Hc. now subst.
Qed.

Lemma styleAfter_optionCalls (cell : CellRef) (options : Options) (st : Style) :
  styleAfter cell (optionCalls cell options) st
  = mkStyle (background st) (fontColor st)
            (match bold options with
             | Some b => Some (if b then "bold" else "normal")%string
             | None => fontWeight st
             end)
            (match italic options with
             | Some b => Some (if b then "italic" else "normal")%string
             | None => fontStyle st
             end)
            (fontLine st).
Proof.
  unfold optionCalls, styleAfter, restyle.
  destruct st, options as [[b |] [i |] [text |]]; cbn [bold italic fontSize];
    try destruct (String.eqb text "");
    cbn [app fold_left addresses target Render.background Render.fontColor
         Render.fontWeight Render.fontStyle Render.fontLine];
    rewrite ?cellRef_eqb_refl; reflexivity.
Qed.

(** [colourCellByValueRandom] on an existing sheet, with a value other
    than null and undefined: it does not throw; afterwards the cell
    holds the value and every other cell of every sheet is as before
    (and nothing at all is written to the sheets when the cell already
    held the value); its background and font colour are the generated
    ones, weight and style follow the options when they give them, and
    the font line is not touched. *)
Theorem colourCellByValueRandom_stores_and_colours sheetName sheet cellAddress value
        str options (h : State) :
  sheets h sheetName = Some sheet ->
  toString value = Ok str ->
  let cell : CellRef := (sheetName, cellAddress) in
  exists h' new backgroundColour foregroundColour,
    colourCellByValueRandom sheetName cellAddress value options h = (Ok tt, h')
    /\ generateColourFromValue value "background" = Ok backgroundColour
    /\ generateColourFromValue value "foreground" = Ok foregroundColour
    /\ (forall name row column,
           sheetOf h' name row column
           = if cellRef_eqb (name, (row, column)) cell then value
             else sheetOf h name row column)
    /\ (strictEq (sheetOf h sheetName (fst cellAddress) (snd cellAddress)) value = true ->
        sheets h' = sheets h)
    /\ calls h' = calls h ++ new
    /\ forall before,
         styleAfter cell new before
         = mkStyle (Some backgroundColour) (Some foregroundColour)
                   (match bold options with
                    | Some b => Some (if b then "bold" else "normal")%string
                    | None => fontWeight before
                    end)
                   (match italic options with
                    | Some b => Some (if b then "italic" else "normal")%string
                    | None => fontStyle before
                    end)
                   (fontLine before).
Proof.
  intros Hsheet Hstr cell.
  exists (logCalls ([SetBackground cell (generated value "background");
                     SetFontColor cell (generated value "foreground")]
                    ++ optionCalls cell options)
                   (storeValue cell value h)).
  exists ((if strictEq (sheetOf h sheetName (fst cellAddress) (snd cellAddress)) value
           then [] else [SetValue cell value])
          ++ [SetBackground cell (generated value "background");
              SetFontColor cell (generated value "foreground")]
          ++ optionCalls cell options).
  exists (generated value "background"), (generated value "foreground").
  split; [now apply colourCellByValueRandom_run with (sheet := sheet) (str := str) |].
  split; [now apply generate_defined with (str := str) |].
  split; [now apply generate_defined with (str := str) |].
  split; [intros name row column; apply (storeValue_contents cell) |].
  split.
  { intros Hsame. unfold storeValue, cell. cbn [fst snd logCalls sheets].
    now rewrite Hsame. }
  split.
  { unfold storeValue, cell. cbn [fst snd].
    destruct (strictEq _ value); cbn [logCalls calls];
      [reflexivity | now rewrite calls_writeCell, <- app_assoc]. }
  intros before. rewrite !styleAfter_app, styleAfter_optionCalls.
  destruct (strictEq _ value); unfold styleAfter, restyle;
    cbn [fold_left addresses target Render.background Render.fontColor
         Render.fontWeight Render.fontStyle Render.fontLine];
    rewrite ?cellRef_eqb_refl; reflexivity.
Qed.

Lemma colourCellByValueRandom_stores_and_colours_witness :
  exists h',
    colourCellByValueRandom "Sheet1" (1, 2)%nat (VString "Pear") noOptions
                            (Sample.host Sample.B1) = (Ok tt, h')
    /\ sheetOf h' "Sheet1" 1%nat 2%nat = VString "Pear"
    /\ sheetOf h' "Sheet1" 1%nat 1%nat = VString "Apple".
Proof.
  destruct (colourCellByValueRandom_stores_and_colours
              "Sheet1" Sample.sheet1 (1, 2)%nat (VString "Pear") "Pear" noOptions
              (Sample.host Sample.B1) eq_refl eq_refl)
    as (h' & new & bg & fg & Hrun & _ & _ & Hcontents & _).
  exists h'. split; [exact Hrun |].
  split; [exact (Hcontents "Sheet1"%string 1%nat 2%nat)
         | exact (Hcontents "Sheet1"%string 1%nat 1%nat)].
Defined.

(** On null and undefined, with the sheet present, the single-cell
    callers write nothing: the generator throws a [TypeError] before any
    setter is called; [colourCellByValueRandom] propagates it and
    [colourCellRandom] reports its message. *)
Theorem single_cell_callers_write_nothing_on_null sheetName sheet cellAddress value
        (h : State) :
  sheets h sheetName = Some sheet ->
  value = VNull \/ value = VUndefined ->
  exists text,
    (forall options,
        colourCellByValueRandom sheetName cellAddress value options h
        = (Thrown (TypeError text), h))
    /\ (forall bold,
           colourCellRandom sheetName cellAddress value bold h
           = (Ok ("Error: " ++ text)%string, h)).
Proof.
  intros Hsheet [-> | ->]; eexists; split; intros;
    unfold colourCellByValueRandom, colourCellRandom, tryCatch, bind, getSheetByName;
    rewrite Hsheet; reflexivity.
Qed.

Lemma single_cell_callers_write_nothing_on_null_witness :
  exists text,
    (forall options,
        colourCellByValueRandom "Sheet1" (1, 2)%nat VNull options (Sample.host Sample.B1)
        = (Thrown (TypeError text), Sample.host Sample.B1))
    /\ (forall bold,
           colourCellRandom "Sheet1" (1, 2)%nat VNull bold (Sample.host Sample.B1)
           = (Ok ("Error: " ++ text)%string, Sample.host Sample.B1)).
Proof.
  exact (single_cell_callers_write_nothing_on_null
           "Sheet1" Sample.sheet1 (1, 2)%nat VNull (Sample.host Sample.B1)
           eq_refl (or_introl eq_refl)).
Defined.


Lemma flat_map_map {A B C} (f : B -> list C) (g : A -> B) (l : list A) :
  flat_map f (map g l) = flat_map (fun x => f (g x)) l.
Proof.
  induction l as [| x l IH]; [reflexivity |]. cbn [map flat_map]. now rewrite IH.
Qed.

(** A [forEach] whose turns append calls and keep an invariant of the
    host appends the calls of its turns in order and keeps the
    invariant. *)
Lemma forEachFrom_run {A} (Inv : State -> Prop) (body : A -> nat -> M unit)
      (turn : A -> nat -> list Call) (d : A) (arr : list A) :
  forall start h,
    Inv h ->
    (forall k x h1,
        nth_error arr k = Some x -> Inv h1 ->
        exists h2, body x (start + k)%nat h1 = (Ok tt, h2)
                   /\ calls h2 = calls h1 ++ turn x (start + k)%nat
                   /\ Inv h2) ->
    exists h',
      forEachFrom start arr body h = (Ok tt, h')
      /\ calls h'
         = calls h ++ flat_map (fun k => turn (nth k arr d) (start + k)%nat)
                               (seq 0 (List.length arr))
      /\ Inv h'.
Proof.
  induction arr as [| x rest IH]; intros start h Hinv Hbody.
  - exists h. cbn. now rewrite app_nil_r.
  - destruct (Hbody 0%nat x h eq_refl Hinv) as (h1 & Hrun & Hcalls & Hinv1).
    destruct (IH (S start) h1 Hinv1) as (h' & Hrest & Hcalls' & Hinv').
    { intros k y h2 Hnth Hinv2.
      replace (S start + k)%nat with (start + S k)%nat by lia.
      now apply Hbody. }
    exists h'. split; [| split; [| exact Hinv']].
    + cbn [forEachFrom]. rewrite Nat.add_0_r in Hrun.
      now rewrite (bind_Ok _ _ _ _ _ Hrun).
    + rewrite Hcalls', Hcalls, <- app_assoc. f_equal.
      cbn [List.length]. rewrite <- cons_seq, <- seq_shift.
      cbn [flat_map nth]. f_equal.
      rewrite flat_map_map. apply flat_map_ext. intros k.
      cbn [nth]. f_equal. lia.
Qed.

Lemma rangeCellCalls_local (options : Options) (cell : CellRef) (value : Value) :
  Forall (fun c => target c = None \/ target c = Some cell)
         (rangeCellCalls options cell value).
Proof.
  unfold rangeCellCalls, optionCalls.
  destruct (Formulas.hasValueRandom value); [| apply Forall_nil].
  destruct (strictEq value value), options as [[b |] [i |] [text |]];
    cbn [bold italic fontSize app]; try destruct (String.eqb text "");
    cbn [app]; repeat (apply Forall_cons; [cbn; auto |]); apply Forall_nil.
Qed.

(** [colourRangeByValueRandom] on an existing sheet: it does not throw,
    its calls are those of the cells of the range that hold a value,
    row by row, and the contents of the sheets are as before. *)
Lemma colourRangeByValueRandom_run sheetName sheet range options (h : State) :
  sheets h sheetName = Some sheet ->
  exists h',
    colourRangeByValueRandom sheetName range options h = (Ok tt, h')
    /\ calls h'
       = calls h ++ Model.overCells sheetName range (rangeValues sheet range)
                                    (rangeCellCalls options)
    /\ (forall name row column,
           sheetOf h' name row column = sheetOf h name row column).
Proof.
  intros Hsheet.
  set (Inv := fun h1 : State =>
                sheets h1 sheetName <> None
                /\ forall name row column,
                     sheetOf h1 name row column = sheetOf h name row column).
  assert (Hinv : Inv h) by (split; [congruence | reflexivity]).
  unfold colourRangeByValueRandom.
  unfold bind at 1, getSheetByName. rewrite Hsheet.
  unfold bind at 1, getValues. unfold sheetOf at 1. rewrite Hsheet.
  unfold forEach.
  destruct (forEachFrom_run Inv
              (fun row rowIndex =>
                 forEachFrom 0 row (fun cellValue colIndex =>
                   if (negb (strictEq cellValue VNull)
                       && negb (strictEq cellValue VUndefined)
                       && negb (strictEq cellValue (VString "")))%bool
                   then colourCellByValueRandom sheetName
                          (snd (getCell sheetName range (rowIndex + 1) (colIndex + 1)))
                          cellValue options
                   else ret tt))
              (fun row rowIndex =>
                 flat_map (fun j => rangeCellCalls options
                                      (getCell sheetName range (rowIndex + 1) (j + 1))
                                      (nth j row VUndefined))
                          (seq 0 (List.length row)))
              [] (rangeValues sheet range) 0%nat h Hinv)
    as (h' & Hrun & Hcalls & Hinv').
  - intros i row h1 Hrow Hinv1. cbn [Nat.add].
    destruct (forEachFrom_run Inv
                (fun cellValue colIndex =>
                   if (negb (strictEq cellValue VNull)
                       && negb (strictEq cellValue VUndefined)
                       && negb (strictEq cellValue (VString "")))%bool
                   then colourCellByValueRandom sheetName
                          (snd (getCell sheetName range (i + 1) (colIndex + 1)))
                          cellValue options
                   else ret tt)
                (fun cellValue colIndex =>
                   rangeCellCalls options
                     (getCell sheetName range (i + 1) (colIndex + 1)) cellValue)
                VUndefined row 0%nat h1 Hinv1)
      as (h2 & Hrun2 & Hcalls2 & Hinv2).
    + intros j value h3 Hvalue [Hsome Hsame]. cbn [Nat.add].
      destruct (rangeValues_nth_error _ _ _ _ _ _ Hrow Hvalue) as (Hv & Hi & Hj).
      unfold rangeCellCalls, Formulas.hasValueRandom.
      destruct (negb (strictEq value VNull) && negb (strictEq value VUndefined)
                && negb (strictEq value (VString "")))%bool eqn:Hhas.
      * destruct (sheets h3 sheetName) as [sheet3 |] eqn:Hsheet3; [| contradiction].
        rewrite getCell_absolute. cbn [snd].
        rewrite (colourCellByValueRandom_run _ _ _ _ _ _ _ Hsheet3
                   (hasValue_toString _ Hhas)).
        eexists. split; [reflexivity |]. split.
        -- cbn [logCalls calls]. unfold storeValue. cbn [fst snd].
           specialize (Hsame sheetName (top range + i)%nat (left range + j)%nat).
           unfold sheetOf at 2 in Hsame. rewrite Hsheet in Hsame.
           rewrite Hsame, <- Hv.
           destruct (strictEq value value); cbn [logCalls calls].
           ++ reflexivity.
           ++ now rewrite calls_writeCell, <- app_assoc.
        -- split.
           ++ cbn [logCalls sheets]. apply sheets_storeValue. congruence.
           ++ intros name row' column'.
              change (sheetOf (logCalls ?cs ?x) name row' column')
                with (sheetOf x name row' column').
              rewrite storeValue_contents.
              destruct (cellRef_eqb _ _) eqn:Hcell; [| apply Hsame].
              apply cellRef_eqb_eq in Hcell. injection Hcell as -> -> ->.
              rewrite Hv. unfold sheetOf. now rewrite Hsheet.
      * exists h3. unfold ret. split; [reflexivity |].
        split; [now rewrite app_nil_r | now split].
    + exists h2. split; [exact Hrun2 |]. split; [| exact Hinv2].
      rewrite Hcalls2. reflexivity.
  - exists h'. split; [exact Hrun |]. split; [| apply Hinv'].
    rewrite Hcalls. reflexivity.
Qed.

(** [colourRangeByValueRandom] on an existing sheet never throws and
    changes the value of no cell.  A cell of the range for which
    [hasValueRandom] holds gets the background and font colour
    generated from its own value, and the weight and style of the
    options when they give them; a cell of the range without a value
    keeps the style it had. *)
Theorem colourRangeByValueRandom_colours_cells_with_a_value sheetName sheet range
        options (h : State) (i j : nat) :
  sheets h sheetName = Some sheet ->
  (i < numRows range)%nat -> (j < numColumns range)%nat ->
  let row := (top range + i)%nat in
  let column := (left range + j)%nat in
  let cell : CellRef := (sheetName, (row, column)) in
  let value := sheetOf h sheetName row column in
  exists h' new,
    colourRangeByValueRandom sheetName range options h = (Ok tt, h')
    /\ calls h' = calls h ++ new
    /\ (forall name row' column',
           sheetOf h' name row' column' = sheetOf h name row' column')
    /\ (Formulas.hasValueRandom value = true ->
        exists backgroundColour foregroundColour,
          generateColourFromValue value "background" = Ok backgroundColour
          /\ generateColourFromValue value "foreground" = Ok foregroundColour
          /\ forall before,
               styleAfter cell new before
               = mkStyle (Some backgroundColour) (Some foregroundColour)
                         (match bold options with
                          | Some b => Some (if b then "bold" else "normal")%string
                          | None => fontWeight before
                          end)
                         (match italic options with
                          | Some b => Some (if b then "italic" else "normal")%string
                          | None => fontStyle before
                          end)
                         (fontLine before))
    /\ (Formulas.hasValueRandom value = false ->
        forall before, styleAfter cell new before = before).
Proof.
  intros Hsheet Hi Hj row column cell value.
  destruct (colourRangeByValueRandom_run sheetName sheet range options h Hsheet)
    as (h' & Hrun & Hcalls & Hcontents).
  exists h'. eexists. split; [exact Hrun |]. split; [exact Hcalls |].
  split; [exact Hcontents |].
  assert (Hvalue : value = sheet row column).
  { unfold value, sheetOf. now rewrite Hsheet. }
  assert (Hon : forall before,
             styleAfter cell (Model.overCells sheetName range (rangeValues sheet range)
                                              (rangeCellCalls options)) before
             = styleAfter cell (rangeCellCalls options cell value) before).
  { intros before. rewrite styleAfter_callsOn. unfold cell, row, column.
    rewrite (callsOn_overCells _ _ _ _ i j (rangeCellCalls_local options) Hi Hj).
    rewrite <- styleAfter_callsOn. now rewrite Hvalue. }
  split.
  - intros Hhas. exists (generated value "background"), (generated value "foreground").
    split; [apply generate_defined with (str := String_ value);
            now apply hasValue_toString |].
    split; [apply generate_defined with (str := String_ value);
            now apply hasValue_toString |].
    intros before. rewrite Hon. unfold rangeCellCalls. rewrite Hhas.
    rewrite !styleAfter_app, styleAfter_optionCalls.
    destruct (strictEq value value); unfold styleAfter, restyle;
      cbn [fold_left addresses target Render.background Render.fontColor
           Render.fontWeight Render.fontStyle Render.fontLine];
      rewrite ?cellRef_eqb_refl; reflexivity.
  - intros Hhas before. rewrite Hon. unfold rangeCellCalls. now rewrite Hhas.
Qed.

Lemma colourRangeByValueRandom_colours_cells_with_a_value_witness :
  exists h' new,
    colourRangeByValueRandom "Sheet1" Sample.A1B2 noOptions (Sample.host Sample.A1B2)
    = (Ok tt, h')
    /\ calls h' = calls (Sample.host Sample.A1B2) ++ new
    /\ (forall row column, sheetOf h' "Sheet1" row column = Sample.sheet1 row column)
    /\ exists backgroundColour foregroundColour,
         generateColourFromValue (VNumber 42) "background" = Ok backgroundColour
         /\ generateColourFromValue (VNumber 42) "foreground" = Ok foregroundColour
         /\ styleAfter ("Sheet1"%string, (2, 1)%nat) new unset
            = mkStyle (Some backgroundColour) (Some foregroundColour) None None None.
Proof.
  destruct (colourRangeByValueRandom_colours_cells_with_a_value
              "Sheet1" Sample.sheet1 Sample.A1B2 noOptions (Sample.host Sample.A1B2)
              1 0 eq_refl ltac:(repeat constructor) ltac:(repeat constructor))
    as (h' & new & Hrun & Hcalls & Hcontents & Hfull & _).
  exists h', new. split; [exact Hrun |]. split; [exact Hcalls |].
  split; [exact (Hcontents "Sheet1"%string) |].
  destruct (Hfull eq_refl) as (bg & fg & Hbg & Hfg & Hstyle).
  exists bg, fg. split; [exact Hbg |]. split; [exact Hfg |]. exact (Hstyle unset).
Defined.

End RandomCallers.

(* ================================================================== *)
(** ** Formatting by formula *)
(* ================================================================== *)

Section FormattingByFormula.
Import JS Host JSString Formatting Render Effects.

Lemma lowerAscii_idem (a : ascii) : lowerAscii (lowerAscii a) = lowerAscii a.
Proof.
  destruct a as [[] [] [] [] [] [] [] []]; vm_compute; reflexivity.
Qed.

Lemma toLowerCase_idem (str : string) : toLowerCase (toLowerCase str) = toLowerCase str.
Proof.
  induction str as [| a rest IH]; [reflexivity |].
  cbn [toLowerCase]. now rewrite lowerAscii_idem, IH.
Qed.

Lemma oneOf_In (s : string) (labels : list string) :
  oneOf s labels = true -> In s labels.
Proof.
  unfold oneOf. intros Hex. apply existsb_exists in Hex.
  destruct Hex as (label & Hin & Heq). apply String.eqb_eq in Heq. now subst.
Qed.

Lemma call_run (c : Call) (h : State) : call c h = (Ok tt, logCalls [c] h).
Proof. reflexivity. Qed.

Lemma whenTruthy_run (colour : option string) (setter : string -> Call) (h : State) :
  whenTruthy colour (fun c => call (setter c)) h
  = (Ok tt, logCalls (truthyCall colour setter) h).
Proof.
  unfold whenTruthy, truthyCall. destruct colour as [c |].
  - destruct (String.eqb c ""); [| reflexivity].
    unfold ret. now rewrite logCalls_nil.
  - unfold ret. now rewrite logCalls_nil.
Qed.

Lemma whenDefined_run (flag : option bool) (setter : string -> Call) (yes no : string)
      (h : State) :
  whenDefined flag (fun text => call (setter text)) yes no h
  = (Ok tt, logCalls (flagCall flag setter yes no) h).
Proof.
  unfold whenDefined, flagCall. destruct flag as [b |]; [reflexivity |].
  unfold ret. now rewrite logCalls_nil.
Qed.

Lemma formatCell_run sheetName sheet cellAddress value backgroundColour fontColour
      bold italic underline (h : State) :
  sheets h sheetName = Some sheet ->
  formatCell sheetName cellAddress value backgroundColour fontColour
             bold italic underline h
  = (Ok "Cell formatted successfully"%string,
     logCalls (formatCellCalls (sheetName, cellAddress) backgroundColour fontColour
                               bold italic underline) h).
Proof.
  intros Hsheet. unfold formatCell, tryCatch.
  unfold bind at 1, getSheetByName. rewrite Hsheet.
  unfold setBackground, setFontColor, setFontWeight, setFontStyle, setFontLine.
  rewrite (bind_Ok _ _ _ _ _ (whenTruthy_run _ _ _)).
  rewrite (bind_Ok _ _ _ _ _ (whenTruthy_run _ _ _)).
  rewrite (bind_Ok _ _ _ _ _ (whenDefined_run _ _ _ _ _)).
  rewrite (bind_Ok _ _ _ _ _ (whenDefined_run _ _ _ _ _)).
  rewrite (bind_Ok _ _ _ _ _ (whenDefined_run _ _ _ _ _)).
  unfold ret, formatCellCalls. rewrite !logCalls_app, <- ?app_assoc. reflexivity.
Qed.

Lemma formatByStatus_run sheetName sheet cellAddress status (h : State) :
  sheets h sheetName = Some sheet ->
  formatByStatus sheetName cellAddress (VString status) h
  = (Ok "Status formatted successfully"%string,
     logCalls (statusCalls (sheetName, cellAddress) (statusStyle (toLowerCase status))) h).
Proof.
  intros Hsheet. unfold formatByStatus, tryCatch.
  unfold bind at 1, getSheetByName. rewrite Hsheet.
  unfold bind at 1, lift, Formulas.toLowerCaseOf.
  unfold setBackground, setFontColor, setFontWeight, setFontStyle, setFontLine.
  rewrite (bind_Ok _ _ _ _ _ (call_run _ _)).
  rewrite (bind_Ok _ _ _ _ _ (call_run _ _)).
  rewrite (bind_Ok _ _ _ _ _ (whenDefined_run _ _ _ _ _)).
  rewrite (bind_Ok _ _ _ _ _ (whenDefined_run _ _ _ _ _)).
  rewrite (bind_Ok _ _ _ _ _ (whenDefined_run _ _ _ _ _)).
  unfold ret, statusCalls. rewrite !logCalls_app, <- ?app_assoc. reflexivity.
Qed.

Lemma styleAfter_truthy_background cell colour st :
  styleAfter cell (truthyCall colour (SetBackground cell)) st
  = mkStyle (match colour with
             | Some c => if String.eqb c "" then background st else Some c
             | None => background st
             end)
            (fontColor st) (fontWeight st) (fontStyle st) (fontLine st).
Proof.
  unfold truthyCall, styleAfter, restyle. destruct st, colour as [c |];
    [destruct (String.eqb c "") |]; cbn; rewrite ?cellRef_eqb_refl; reflexivity.
Qed.

Lemma styleAfter_truthy_fontColor cell colour st :
  styleAfter cell (truthyCall colour (SetFontColor cell)) st
  = mkStyle (background st)
            (match colour with
             | Some c => if String.eqb c "" then fontColor st else Some c
             | None => fontColor st
             end)
            (fontWeight st) (fontStyle st) (fontLine st).
Proof.
  unfold truthyCall, styleAfter, restyle. destruct st, colour as [c |];
    [destruct (String.eqb c "") |]; cbn; rewrite ?cellRef_eqb_refl; reflexivity.
Qed.

Lemma styleAfter_flag_weight cell flag st :
  styleAfter cell (flagCall flag (SetFontWeight cell) "bold" "normal") st
  = mkStyle (background st) (fontColor st)
            (match flag with
             | Some b => Some (if b then "bold" else "normal")%string
             | None => fontWeight st
             end)
            (fontStyle st) (fontLine st).
Proof.
  unfold flagCall, styleAfter, restyle. destruct st, flag as [b |];
    cbn; rewrite ?cellRef_eqb_refl; reflexivity.
Qed.

Lemma styleAfter_flag_style cell flag st :
  styleAfter cell (flagCall flag (SetFontStyle cell) "italic" "normal") st
  = mkStyle (background st) (fontColor st) (fontWeight st)
            (match flag with
             | Some b => Some (if b then "italic" else "normal")%string
             | None => fontStyle st
             end)
            (fontLine st).
Proof.
  unfold flagCall, styleAfter, restyle. destruct st, flag as [b |];
    cbn; rewrite ?cellRef_eqb_refl; reflexivity.
Qed.

Lemma styleAfter_flag_line cell flag st :
  styleAfter cell (flagCall flag (SetFontLine cell) "underline" "none") st
  = mkStyle (background st) (fontColor st) (fontWeight st) (fontStyle st)
            (match flag with
             | Some b => Some (if b then "underline" else "none")%string
             | None => fontLine st
             end).
Proof.
  unfold flagCall, styleAfter, restyle. destruct st, flag as [b |];
    cbn; rewrite ?cellRef_eqb_refl; reflexivity.
Qed.

Lemma styleAfter_statusCalls cell (style : StatusStyle) st :
  styleAfter cell (statusCalls cell style) st
  = mkStyle (Some (backgroundColour style)) (Some (fontColour style))
            (match bold style with
             | Some b => Some (if b then "bold" else "normal")%string
             | None => fontWeight st
             end)
            (match italic style with
             | Some b => Some (if b then "italic" else "normal")%string
             | None => fontStyle st
             end)
            (match underline style with
             | Some b => Some (if b then "underline" else "none")%string
             | None => fontLine st
             end).
Proof.
  unfold statusCalls.
  rewrite !styleAfter_app, styleAfter_flag_line, styleAfter_flag_style,
    styleAfter_flag_weight.
  unfold styleAfter, restyle.
  cbn [fold_left addresses target background fontColor fontWeight fontStyle fontLine].
  now rewrite !cellRef_eqb_refl.
Qed.

Lemma formatCellCalls_local cell backgroundColour fontColour bold italic underline :
  Forall (fun c => target c = None \/ target c = Some cell)
         (formatCellCalls cell backgroundColour fontColour bold italic underline).
Proof.
  unfold formatCellCalls, truthyCall, flagCall.
  destruct backgroundColour as [b |]; [destruct (String.eqb b "") |];
    (destruct fontColour as [f |]; [destruct (String.eqb f "") |]);
    destruct bold, italic, underline; cbn [app];
    repeat (apply Forall_cons; [cbn; auto |]); apply Forall_nil.
Qed.

(** [formatCell] on an existing sheet answers "Cell formatted
    successfully", writes no value, and sets exactly the attributes it
    is given: an absent or empty colour and an absent flag leave the
    attribute of the cell as it was; the style of every other cell is
    unchanged. *)
Theorem formatCell_sets_what_it_is_given sheetName sheet cellAddress value
        backgroundColour fontColour bold italic underline (h : State) :
  sheets h sheetName = Some sheet ->
  exists new,
    formatCell sheetName cellAddress value backgroundColour fontColour
               bold italic underline h
    = (Ok "Cell formatted successfully"%string, logCalls new h)
    /\ (forall before,
           styleAfter (sheetName, cellAddress) new before
           = mkStyle
               (match backgroundColour with
                | Some c => if String.eqb c "" then background before else Some c
                | None => background before
                end)
               (match fontColour with
                | Some c => if String.eqb c "" then fontColor before else Some c
                | None => fontColor before
                end)
               (match bold with
                | Some b => Some (if b then "bold" else "normal")%string
                | None => fontWeight before
                end)
               (match italic with
                | Some b => Some (if b then "italic" else "normal")%string
                | None => fontStyle before
                end)
               (match underline with
                | Some b => Some (if b then "underline" else "none")%string
                | None => fontLine before
                end))
    /\ (forall other before,
           other <> (sheetName, cellAddress) -> styleAfter other new before = before).
Proof.
  intros Hsheet. eexists. split; [now apply formatCell_run with (sheet := sheet) |].
  split.
  - intros before. unfold formatCellCalls.
    rewrite !styleAfter_app, styleAfter_truthy_background, styleAfter_truthy_fontColor,
      styleAfter_flag_weight, styleAfter_flag_style, styleAfter_flag_line.
    reflexivity.
  - intros other before Hother. rewrite styleAfter_callsOn.
    rewrite (callsOn_elsewhere other (sheetName, cellAddress)); [reflexivity | congruence |].
    apply formatCellCalls_local.
Qed.

Lemma formatCell_sets_what_it_is_given_witness :
  exists new,
    formatCell "Sheet1" (1, 1)%nat (VString "ignored") (Some "#ff0000"%string)
               (Some ""%string) (Some true) None None (Sample.host Sample.A1)
    = (Ok "Cell formatted successfully"%string, logCalls new (Sample.host Sample.A1))
    /\ styleAfter ("Sheet1"%string, (1, 1)%nat) new unset
       = mkStyle (Some "#ff0000"%string) None (Some "bold"%string) None None.
Proof.
  destruct (formatCell_sets_what_it_is_given
              "Sheet1" Sample.sheet1 (1, 1)%nat (VString "ignored")
              (Some "#ff0000"%string) (Some ""%string) (Some true) None None
              (Sample.host Sample.A1) eq_refl)
    as (new & Hrun & Hstyle & _).
  exists new. split; [exact Hrun | exact (Hstyle unset)].
Defined.

(** [formatByStatus] only looks at the lower-cased status: a status and
    its lower-case form are formatted alike, on every host. *)
Theorem formatByStatus_ignores_case sheetName cellAddress (status : string) (h : State) :
  formatByStatus sheetName cellAddress (VString status) h
  = formatByStatus sheetName cellAddress (VString (toLowerCase status)) h.
Proof.
  unfold formatByStatus, Formulas.toLowerCaseOf. now rewrite toLowerCase_idem.
Qed.

(** [formatByStatus] sets background, font colour and weight for every
    status, but the [switch] leaves [italic] undefined for the error
    statuses and [underline] undefined for all the others: an error
    status does not touch the font style of the cell, and no other
    status ever removes an underline.  So a cell formatted as an error
    and then as anything else keeps the underline of the error. *)
Theorem formatByStatus_never_removes_the_underline sheetName sheet cellAddress
        (first second : string) (h : State) (before : Style) :
  sheets h sheetName = Some sheet ->
  oneOf (toLowerCase first) ["error"; "failed"; "issue"]%string = true ->
  oneOf (toLowerCase second) ["error"; "failed"; "issue"]%string = false ->
  let cell : CellRef := (sheetName, cellAddress) in
  exists h1 h2 new1 new2,
    formatByStatus sheetName cellAddress (VString first) h
    = (Ok "Status formatted successfully"%string, h1)
    /\ formatByStatus sheetName cellAddress (VString second) h1
       = (Ok "Status formatted successfully"%string, h2)
    /\ calls h1 = calls h ++ new1
    /\ calls h2 = calls h1 ++ new2
    /\ fontLine (styleAfter cell new1 before) = Some "underline"%string
    /\ fontStyle (styleAfter cell new1 before) = fontStyle before
    /\ fontLine (styleAfter cell (new1 ++ new2) before) = Some "underline"%string
    /\ background (styleAfter cell (new1 ++ new2) before)
       = Some (backgroundColour (statusStyle (toLowerCase second)))
    /\ fontColor (styleAfter cell (new1 ++ new2) before)
       = Some (fontColour (statusStyle (toLowerCase second))).
Proof.
  intros Hsheet Hfirst Hsecond cell.
  exists (logCalls (statusCalls cell (statusStyle (toLowerCase first))) h).
  exists (logCalls (statusCalls cell (statusStyle (toLowerCase second)))
                   (logCalls (statusCalls cell (statusStyle (toLowerCase first))) h)).
  exists (statusCalls cell (statusStyle (toLowerCase first))),
    (statusCalls cell (statusStyle (toLowerCase second))).
  split; [now apply formatByStatus_run with (sheet := sheet) |].
  split; [now apply formatByStatus_run with (sheet := sheet) |].
  split; [reflexivity |]. split; [reflexivity |].
  assert (Hstyle1 : statusStyle (toLowerCase first)
                    = mkStatusStyle "#f8d7da" "#721c24" (Some true) None (Some true)).
  { apply oneOf_In in Hfirst. cbn [In] in Hfirst.
    destruct Hfirst as [<- | [<- | [<- | []]]]; reflexivity. }
  assert (Hline2 : underline (statusStyle (toLowerCase second)) = None).
  { unfold statusStyle. rewrite Hsecond.
    repeat match goal with |- context [if ?b then _ else _] => destruct b end;
      reflexivity. }
  rewrite !styleAfter_app, !styleAfter_statusCalls, Hstyle1, Hline2.
  cbn [backgroundColour fontColour bold italic underline
       background fontColor fontWeight fontStyle fontLine].
  repeat split; reflexivity.
Qed.

Lemma formatByStatus_never_removes_the_underline_witness :
  exists h1 h2 new1 new2,
    formatByStatus "Sheet1" (1, 1)%nat (VString "Error") (Sample.host Sample.A1)
    = (Ok "Status formatted successfully"%string, h1)
    /\ formatByStatus "Sheet1" (1, 1)%nat (VString "Complete") h1
       = (Ok "Status formatted successfully"%string, h2)
    /\ calls h1 = calls (Sample.host Sample.A1) ++ new1
    /\ calls h2 = calls h1 ++ new2
    /\ fontLine (styleAfter ("Sheet1"%string, (1, 1)%nat) (new1 ++ new2) unset)
       = Some "underline"%string
    /\ background (styleAfter ("Sheet1"%string, (1, 1)%nat) (new1 ++ new2) unset)
       = Some "#d4edda"%string.
Proof.
  destruct (formatByStatus_never_removes_the_underline
              "Sheet1" Sample.sheet1 (1, 1)%nat "Error" "Complete"
              (Sample.host Sample.A1) unset eq_refl eq_refl eq_refl)
    as (h1 & h2 & new1 & new2 & Hrun1 & Hrun2 & Hcalls1 & Hcalls2 & _ & _ & Hline & Hbg & _).
  exists h1, h2, new1, new2. repeat split; assumption.
Defined.

End FormattingByFormula.

(* ================================================================== *)
(** ** The formula predicates *)
(* ================================================================== *)

Section FormulaPredicates.
Import JS Host JSString Formulas.

Lemma startsWith_spec (str search : string) :
  startsWith str search = true <-> exists rest, str = (search ++ rest)%string.
Proof.
  unfold startsWith. revert str.
  induction search as [| a search IH]; intros str.
  - split; [intros _; now exists str | intros _; now destruct str].
  - destruct str as [| b str]; cbn [String.prefix].
    + split; [discriminate | intros (rest & Heq); discriminate Heq].
    + destruct (ascii_dec a b) as [-> | Hneq].
      * rewrite IH. split; intros (rest & Heq); exists rest.
        -- cbn. now rewrite Heq.
        -- cbn in Heq. now injection Heq.
      * split; [discriminate |].
        intros (rest & Heq). cbn in Heq. injection Heq as Hab _. congruence.
Qed.

(** [includes] is substring search. *)
Lemma includes_spec (str search : string) :
  includes str search = true
  <-> exists before after, str = (before ++ search ++ after)%string.
Proof.
  induction str as [| a str IH]; cbn [includes]; rewrite orb_true_iff, startsWith_spec.
  - split.
    + intros [(rest & Heq) | Hfalse]; [| discriminate].
      now exists ""%string, rest.
    + intros (before & after & Heq). left.
      destruct before; [now exists after | discriminate Heq].
  - rewrite IH. split.
    + intros [(rest & Heq) | (before & after & Heq)].
      * now exists ""%string, rest.
      * exists (String a before), after. cbn. now rewrite Heq.
    + intros (before & after & Heq). destruct before as [| b before].
      * left. now exists after.
      * right. cbn in Heq. injection Heq as _ Heq. now exists before, after.
Qed.

Lemma append_empty_r (str : string) : (str ++ "")%string = str.
Proof. induction str as [| a str IH]; [reflexivity |]. cbn. now rewrite IH. Qed.

Lemma includes_empty (str : string) : includes str "" = true.
Proof. apply includes_spec. now exists ""%string, str. Qed.

Lemma not_null_toString (value : Value) :
  (strictEq value VNull || strictEq value VUndefined)%bool = false ->
  Utility.toString value = Ok (String_ value).
Proof. destruct value; cbn; intros; congruence. Qed.

Lemma includes_refl (str : string) : includes str str = true.
Proof.
  apply includes_spec. exists ""%string, ""%string. cbn. now rewrite append_empty_r.
Qed.

Lemma textColourCondition_run (cellValue : Value) (text : string) :
  (strictEq cellValue VNull || strictEq cellValue VUndefined)%bool = false ->
  textColourCondition cellValue (VString text)
  = includes (toLowerCase (String_ cellValue)) (toLowerCase text).
Proof.
  intros Hguard. unfold textColourCondition, textColourCondition_try.
  now rewrite Hguard, (not_null_toString _ Hguard).
Qed.

Lemma valueRandomColour_run (cellValue : Value) (text : string) :
  (strictEq cellValue VNull || strictEq cellValue VUndefined)%bool = false ->
  valueRandomColour cellValue (VString text)
  = Ok (String.eqb (toLowerCase (String_ cellValue)) (toLowerCase text)).
Proof. intros Hguard. destruct cellValue; try discriminate Hguard; reflexivity. Qed.

(** [textColourCondition] never throws and is a case-insensitive
    substring test on the string form of the cell: it is false for a
    null or undefined cell and for a target that is not a string;
    otherwise it is true exactly when the lower-cased target occurs in
    the lower-cased string form of the cell.  In particular the empty
    target matches every cell that is not null, the empty one
    included. *)
Theorem textColourCondition_is_case_insensitive_containment (cellValue : Value) :
  (forall targetText,
      cellValue = VNull \/ cellValue = VUndefined ->
      textColourCondition cellValue targetText = false)
  /\ (forall targetText,
         (forall text, targetText <> VString text) ->
         textColourCondition cellValue targetText = false)
  /\ (forall text,
         cellValue <> VNull -> cellValue <> VUndefined ->
         (textColourCondition cellValue (VString text) = true
          <-> exists before after,
                toLowerCase (String_ cellValue)
                = (before ++ toLowerCase text ++ after)%string)
         /\ textColourCondition cellValue (VString (toLowerCase text))
            = textColourCondition cellValue (VString text)
         /\ textColourCondition cellValue (VString "") = true).
Proof.
  split; [| split].
  - intros targetText [-> | ->]; reflexivity.
  - intros targetText Hnot. unfold textColourCondition, textColourCondition_try.
    destruct (strictEq cellValue VNull || strictEq cellValue VUndefined)%bool;
      [reflexivity |].
    destruct (Utility.toString cellValue); [| reflexivity].
    destruct targetText as [| | b | n | text | d]; try reflexivity.
    now destruct (Hnot text).
  - intros text Hnull Hundefined.
    assert (Hguard : (strictEq cellValue VNull || strictEq cellValue VUndefined)%bool
                     = false) by (destruct cellValue; cbn; congruence).
    split; [| split].
    + rewrite textColourCondition_run by assumption. apply includes_spec.
    + now rewrite !textColourCondition_run, toLowerCase_idem by assumption.
    + rewrite textColourCondition_run by assumption. apply includes_empty.
Qed.

(** [valueRandomColour] answers false for a null or undefined cell
    without looking at the target; for any other cell it throws a
    [TypeError] when the target is not a string; and when it answers
    true, [textColourCondition] on the same arguments is true as well:
    an exact match, case apart, is a containment. *)
Theorem valueRandomColour_edge_cases_and_containment (cellValue targetValue : Value) :
  (cellValue = VNull \/ cellValue = VUndefined ->
   valueRandomColour cellValue targetValue = Ok false)
  /\ (cellValue <> VNull -> cellValue <> VUndefined ->
      (forall text, targetValue <> VString text) ->
      exists message, valueRandomColour cellValue targetValue = Thrown (TypeError message))
  /\ (forall text,
         cellValue <> VNull -> cellValue <> VUndefined ->
         valueRandomColour cellValue (VString text)
         = Ok (String.eqb (toLowerCase (String_ cellValue)) (toLowerCase text)))
  /\ (valueRandomColour cellValue targetValue = Ok true ->
      textColourCondition cellValue targetValue = true).
Proof.
  split; [| split; [| split]].
  - intros [-> | ->]; reflexivity.
  - intros Hnull Hundefined Hnot.
    destruct targetValue as [| | b | n | text | d];
      try (destruct cellValue; try congruence; eexists; reflexivity).
    now destruct (Hnot text).
  - intros text Hnull Hundefined. destruct cellValue; try congruence; reflexivity.
  - intros Htrue.
    destruct (strictEq cellValue VNull || strictEq cellValue VUndefined)%bool eqn:Hguard.
    + destruct cellValue; try discriminate Hguard; discriminate Htrue.
    + destruct targetValue as [| | b | n | text | d];
        try (destruct cellValue; discriminate).
      rewrite valueRandomColour_run in Htrue by assumption.
      injection Htrue as Heq. apply String.eqb_eq in Heq.
      rewrite textColourCondition_run, Heq by assumption. apply includes_refl.
Qed.

End FormulaPredicates.

(* ================================================================== *)
(** ** The rolling hash as a polynomial *)
(* ================================================================== *)

Section PolynomialHash.
Import JS Host Utility.

Lemma toInt32_same_residue (x y : Z) :
  toInt32 x = toInt32 y -> exists k, x = y + k * 2 ^ 32.
Proof.
  intros Heq.
  destruct (toInt32_decomp x) as [q Hq]. destruct (toInt32_decomp y) as [r Hr].
  exists (r - q). lia.
Qed.

(** Wrapping at every turn or once at the end gives the same 32-bit
    value. *)
Lemma fold_hashStep_residue (codes : list Z) :
  forall hash sum,
    toInt32 hash = toInt32 sum ->
    toInt32 (fold_left hashStep codes hash)
    = toInt32 (fold_left (fun s c => s * 31 + c) codes sum).
Proof.
  induction codes as [| c codes IH]; intros hash sum Heq; [exact Heq |].
  rewrite !fold_left_cons. apply IH.
  rewrite hashStep_polynomial, toInt32_idem.
  destruct (toInt32_same_residue _ _ Heq) as [k ->].
  apply toInt32_congr.
  replace ((sum + k * 2 ^ 32) * 31 + c) with (sum * 31 + c + (31 * k) * 2 ^ 32) by lia.
  apply Z_mod_plus_full.
Qed.

Lemma hashOfCodes_wraps_once (codes : list Z) :
  hashOfCodes codes = Z.abs (toInt32 (fold_left (fun s c => s * 31 + c) codes 0)).
Proof.
  unfold hashOfCodes, Math_abs.
  rewrite <- (fold_hashStep_residue codes 0 0 eq_refl).
  rewrite toInt32_small; [reflexivity |].
  apply hashLoop_range. lia.
Qed.

Lemma charCodes_app (a b : string) :
  charCodes (a ++ b) = charCodes a ++ charCodes b.
Proof.
  unfold charCodes. induction a as [| x a IH]; [reflexivity |].
  cbn [String.append list_ascii_of_string map app]. now rewrite IH.
Qed.

(** The hash is the absolute value of the polynomial
    [c0*31^(n-1) + ... + c(n-1)], computed without any wrapping and
    reduced to signed 32 bits once.  So raising a character code by one
    and lowering the next by 31 changes nothing, wherever the two
    characters stand: all the strings [p ++ "Aa" ++ s] and
    [p ++ "BB" ++ s] get the same colours, for both roles. *)
Theorem rolling_hash_wraps_once_and_collides (codes before after : list Z) (a b : Z) :
  hashOfCodes codes = Z.abs (toInt32 (fold_left (fun s c => s * 31 + c) codes 0))
  /\ hashOfCodes (before ++ [a; b] ++ after)
     = hashOfCodes (before ++ [a + 1; b - 31] ++ after)
  /\ (forall (p s type : string),
         generateColourFromValue (VString (p ++ "Aa" ++ s)) type
         = generateColourFromValue (VString (p ++ "BB" ++ s)) type).
Proof.
  assert (Hshift : forall pre post x y,
             hashOfCodes (pre ++ [x; y] ++ post)
             = hashOfCodes (pre ++ [x + 1; y - 31] ++ post)).
  { intros pre post x y. rewrite !hashOfCodes_wraps_once, !fold_left_app.
    cbn [fold_left]. do 3 f_equal. lia. }
  split; [apply hashOfCodes_wraps_once |]. split; [apply Hshift |].
  intros p s type. unfold generateColourFromValue, toString, String_.
  rewrite !charCodes_app.
  change (charCodes "Aa") with [65; 97]. change (charCodes "BB") with [65 + 1; 97 - 31].
  now rewrite (Hshift (charCodes p) (charCodes s) 65 97).
Qed.

End PolynomialHash.

Section ColourCondition.
Import JS Host JSString Formulas.

Variable Float : Type.
Variable parseFloat : Value -> Float.
Variables greater less greaterEqual lessEqual : Float -> Float -> bool.

Let condition := colourCondition Float parseFloat greater less greaterEqual lessEqual.

Lemma endsWith_spec (str search : string) :
  endsWith str search = true <-> exists front, str = (front ++ search)%string.
Proof.
  induction str as [| a str IH]; cbn [endsWith]; rewrite orb_true_iff, String.eqb_eq.
  - split.
    + intros [<- | Hfalse]; [now exists ""%string | discriminate].
    + intros (front & Heq). left. destruct front; [exact Heq | discriminate Heq].
  - rewrite IH. split.
    + intros [<- | (front & ->)]; [now exists ""%string | now exists (String a front)].
    + intros (front & Heq). destruct front as [| b front].
      * now left.
      * right. cbn in Heq. injection Heq as _ Heq. now exists front.
Qed.

Lemma colourCondition_run (cellValue targetValue : Value) (cellText targetText name : string) :
  Utility.toString cellValue = Ok cellText ->
  Utility.toString targetValue = Ok targetText ->
  colourCondition_try Float parseFloat greater less greaterEqual lessEqual
                      cellValue targetValue (VString name)
  = Ok (let cellStr := toLowerCase cellText in
        let targetStr := toLowerCase targetText in
        let name := toLowerCase name in
        if String.eqb name "equals" then String.eqb cellStr targetStr
        else if String.eqb name "contains" then includes cellStr targetStr
        else if String.eqb name "greater" then
          greater (parseFloat cellValue) (parseFloat targetValue)
        else if String.eqb name "less" then
          less (parseFloat cellValue) (parseFloat targetValue)
        else if String.eqb name "greaterequal" then
          greaterEqual (parseFloat cellValue) (parseFloat targetValue)
        else if String.eqb name "lessequal" then
          lessEqual (parseFloat cellValue) (parseFloat targetValue)
        else if String.eqb name "notequals" then negb (String.eqb cellStr targetStr)
        else if String.eqb name "notcontains" then negb (includes cellStr targetStr)
        else if String.eqb name "startswith" then startsWith cellStr targetStr
        else if String.eqb name "endswith" then endsWith cellStr targetStr
        else String.eqb cellStr targetStr).
Proof.
  intros Hcell Htarget. unfold colourCondition_try.
  assert (Hguard : (strictEq cellValue VNull || strictEq cellValue VUndefined)%bool
                   = false) by (destruct cellValue; try reflexivity; discriminate Hcell).
  now rewrite Hguard, Hcell, Htarget.
Qed.

(** [colourCondition] never throws.  It is false for a null or
    undefined cell whatever the condition, "notequals" and
    "notcontains" included.  For a cell and a target that have string
    forms, the text conditions compare the lower-cased string forms:
    "equals" is equality, "contains", "startswith" and "endswith" are
    substring, prefix and suffix, "notequals" and "notcontains" are
    their negations; the name of the condition is itself taken in lower
    case, and a name that is none of the ten known ones means
    "equals". *)
Theorem colourCondition_text_conditions (cellValue targetValue : Value)
        (cellText targetText : string) :
  (forall anyTarget anyCondition,
      condition VNull anyTarget anyCondition = false
      /\ condition VUndefined anyTarget anyCondition = false)
  /\ (Utility.toString cellValue = Ok cellText ->
      Utility.toString targetValue = Ok targetText ->
      let cellStr := toLowerCase cellText in
      let targetStr := toLowerCase targetText in
      let holds := fun name => condition cellValue targetValue (VString name) in
      (holds "equals"%string = true <-> cellStr = targetStr)
      /\ (holds "contains"%string = true
          <-> exists before after, cellStr = (before ++ targetStr ++ after)%string)
      /\ (holds "startswith"%string = true <-> exists rest, cellStr = (targetStr ++ rest)%string)
      /\ (holds "endswith"%string = true <-> exists front, cellStr = (front ++ targetStr)%string)
      /\ holds "notequals"%string = negb (holds "equals"%string)
      /\ holds "notcontains"%string = negb (holds "contains"%string)
      /\ (forall name, holds name = holds (toLowerCase name))
      /\ (forall name,
             Formatting.oneOf (toLowerCase name)
               ["equals"; "contains"; "greater"; "less"; "greaterequal"; "lessequal";
                "notequals"; "notcontains"; "startswith"; "endswith"]%string = false ->
             holds name = holds "equals"%string)).
Proof.
  split; [intros; split; reflexivity |].
  intros Hcell Htarget cellStr targetStr holds.
  assert (Hrun := fun name => colourCondition_run _ _ _ _ name Hcell Htarget).
  unfold holds, condition, colourCondition.
  split; [| split; [| split; [| split; [| split; [| split; [| split]]]]]];
    rewrite ?Hrun.
  - cbn. apply String.eqb_eq.
  - cbn. apply includes_spec.
  - cbn. apply startsWith_spec.
  - cbn. apply endsWith_spec.
  - reflexivity.
  - reflexivity.
  - intros name. rewrite !Hrun. now rewrite toLowerCase_idem.
  - intros name Hunknown. rewrite !Hrun. cbv zeta.
    unfold Formatting.oneOf in Hunknown. cbn [existsb] in Hunknown.
    repeat (apply orb_false_iff in Hunknown; destruct Hunknown as [? Hunknown]).
    repeat match goal with
           | H : String.eqb (toLowerCase name) ?label = false |- _ =>
               rewrite H; clear H
           end.
    reflexivity.
Qed.

End ColourCondition.

Section ColourConditionOnSample.
Import JS Host JSString Formulas.

Lemma colourCondition_text_conditions_witness :
  colourCondition unit (fun _ => tt) (fun _ _ => false) (fun _ _ => false)
                  (fun _ _ => false) (fun _ _ => false)
                  (VString "Error 42") (VString "ERROR") (VString "StartsWith") = true.
Proof.
  destruct (colourCondition_text_conditions
              unit (fun _ => tt) (fun _ _ => false) (fun _ _ => false)
              (fun _ _ => false) (fun _ _ => false)
              (VString "Error 42") (VString "ERROR") "Error 42" "ERROR")
    as [_ Htext].
  destruct (Htext eq_refl eq_refl) as (_ & _ & Hstarts & _ & _ & _ & Hcase & _).
  rewrite Hcase. apply Hstarts. now exists " 42"%string.
Defined.

End ColourConditionOnSample.
